(** * cli_audit.py: a shallow embedding and its checked properties

    The development follows
    [plugins/outfitter/skills/cli-craft/scripts/cli_audit.py].

    - Python [str] values are sequences of Unicode code points, [list N].
    - [bytes] values are [list N] with every element below 256.
    - Python [int] is [Z]; [Optional[T]] is [option T]; [Dict[str, T]] is a
      [gmap] keyed by strings.
    - The regular expressions of the script are terms of a small regex
      syntax, run by a backtracking matcher that lists the possible end
      positions of a match in priority order.
    - [run_cmd] and [main] run in a state-and-exception monad over the
      auditor's heap of dictionaries ([os.environ] lives there), the trace
      of what the process did (children spawned, text printed) and the
      number of children spawned so far. *)

From Stdlib Require Import ZArith NArith List String Ascii Bool Lia.
From Stdlib Require Import DecimalString Floats.
From stdpp Require Import base option list gmap.

Local Open Scope N_scope.

(** ** Text *)

(** A Python [str]: its code points. *)
Abbreviation pystr := (list N).

(** A Python [bytes] object: values 0..255. *)
Abbreviation pybytes := (list N) (only parsing).

(** String literals of the script (all of them are ASCII). *)
Definition py (s : string) : pystr :=
  List.map N_of_ascii (list_ascii_of_string s).
Arguments py s%_string.

(** One-character literals. *)
Definition ch (a : ascii) : N := N_of_ascii a.
Arguments ch a%_char.

Definition NL : pystr := [10].    (* "\n" *)
Definition CR : N := 13.          (* "\r" *)
Definition ESC : N := 27.         (* "\x1b" *)
Definition BEL : N := 7.          (* "\x07" *)

(** Truth value of a string: non-empty. *)
Definition truthy (s : pystr) : bool :=
  match s with [] => false | _ => true end.

(** [str.isspace] on one character, which is also the class [\s] of [re]
    on [str] patterns: the characters of the Unicode database whose
    category is Zs or whose bidirectional class is WS, B or S. *)
Definition is_space (c : N) : bool :=
  ((9 <=? c) && (c <=? 13)) || ((28 <=? c) && (c <=? 32))
  || (c =? 133) || (c =? 160) || (c =? 5760)
  || ((8192 <=? c) && (c <=? 8202))
  || (c =? 8232) || (c =? 8233) || (c =? 8239) || (c =? 8287)
  || (c =? 12288).

(** [s.lstrip()], [s.rstrip()], [s.strip()] with no argument. *)
Fixpoint lstrip (s : pystr) : pystr :=
  match s with
  | c :: s' => if is_space c then lstrip s' else s
  | [] => []
  end.

Definition rstrip (s : pystr) : pystr := rev (lstrip (rev s)).

Definition strip (s : pystr) : pystr := rstrip (lstrip s).

(** [s.startswith(p)]. *)
Fixpoint startswith (p s : pystr) : bool :=
  match p, s with
  | [], _ => true
  | a :: p', b :: s' => (a =? b) && startswith p' s'
  | _ :: _, [] => false
  end.

(** [needle in hay]. *)
Fixpoint contains (needle hay : pystr) : bool :=
  startswith needle hay ||
  match hay with
  | [] => false
  | _ :: hay' => contains needle hay'
  end.

(** [c in s] for a single character. *)
Definition contains_char (c : N) (s : pystr) : bool :=
  existsb (N.eqb c) s.

(** ** Regular expressions *)

(** The items of a character class. *)
Inductive charset : Type :=
| CsLit (c : N)               (* a literal character *)
| CsRange (lo hi : N)         (* [lo-hi] *)
| CsSpace                     (* \s *)
| CsDot                       (* . *)
| CsUnion (a b : charset).    (* [ab] *)

(** The flags that change how a pattern matches.  [re.VERBOSE] only
    changes how the pattern text is read. *)
Record re_flags : Type := { DOTALL : bool }.

Definition charset_mem (fl : re_flags) : charset -> N -> bool :=
  fix mem (cs : charset) (c : N) : bool :=
    match cs with
    | CsLit x => c =? x
    | CsRange lo hi => (lo <=? c) && (c <=? hi)
    | CsSpace => is_space c
    | CsDot => DOTALL fl || negb (c =? 10)
    | CsUnion a b => mem a c || mem b c
    end.

Inductive regex : Type :=
| Empty                          (* the empty pattern *)
| Chr (cs : charset)             (* one character of a class *)
| Cat (r1 r2 : regex)            (* r1 r2 *)
| Alt (r1 r2 : regex)            (* r1|r2 *)
| Star (greedy : bool) (r : regex)   (* r* and r*? *)
| Bol                            (* ^ without re.MULTILINE *)
| Eol.                           (* $ without re.MULTILINE *)

(** Iterating a pattern from position [i]: [step j] lists where one more
    iteration started at [j] can end.  Only iterations that consume input
    are repeated.  A greedy star tries more iterations first, a lazy one
    fewer. *)
Fixpoint star_ends (greedy : bool) (step : nat -> list nat)
    (fuel : nat) (i : nat) : list nat :=
  match fuel with
  | O => [i]
  | S fuel' =>
      let more :=
        List.filter (fun j => (i <? j)%nat) (step i)
          ≫= star_ends greedy step fuel' in
      if greedy then more ++ [i] else i :: more
  end.

(** [ends fl r s i]: the positions where a match of [r] that starts at
    position [i] of [s] can end, in the order in which the backtracking
    matcher of [re] tries them. *)
Fixpoint ends (fl : re_flags) (r : regex) (s : pystr) (i : nat) : list nat :=
  match r with
  | Empty => [i]
  | Chr cs =>
      match s !! i with
      | Some c => if charset_mem fl cs c then [S i] else []
      | None => []
      end
  | Cat r1 r2 => ends fl r1 s i ≫= ends fl r2 s
  | Alt r1 r2 => ends fl r1 s i ++ ends fl r2 s i
  | Star greedy r1 =>
      star_ends greedy (ends fl r1 s) (S (length s - i)) i
  | Bol => if (i =? 0)%nat then [i] else []
  | Eol =>
      if (i =? length s)%nat then [i]
      else if (S i =? length s)%nat && bool_decide (s !! i = Some 10)
           then [i] else []
  end.

(** [pattern.search(s)]: the span of the first match, trying the start
    positions from left to right; [None] when there is none. *)
Fixpoint search_from (fl : re_flags) (r : regex) (s : pystr)
    (n : nat) (i : nat) : option (nat * nat) :=
  match n with
  | O => None
  | S n' =>
      match ends fl r s i with
      | j :: _ => Some (i, j)
      | [] => search_from fl r s n' (S i)
      end
  end.

Definition re_search (fl : re_flags) (r : regex) (s : pystr)
  : option (nat * nat) :=
  search_from fl r s (S (length s)) 0.

(** A match object is always true, [None] is false. *)
Definition found (m : option (nat * nat)) : bool :=
  match m with Some _ => true | None => false end.

(** [ANSI_RE], compiled with [re.VERBOSE | re.DOTALL]. *)
Definition ANSI_FLAGS : re_flags := {| DOTALL := true |}.

Definition ANSI_RE : regex :=
  Cat (Chr (CsLit ESC))                                   (* \x1b *)
    (Alt
       (* \[ [0-?]* [ -/]* [@-~] *)
       (Cat (Chr (CsLit (ch "[")))
          (Cat (Star true (Chr (CsRange (ch "0") (ch "?"))))
             (Cat (Star true (Chr (CsRange (ch " ") (ch "/"))))
                (Chr (CsRange (ch "@") (ch "~"))))))
       (Alt
          (* \] .*? (?:\x07|\x1b\\) *)
          (Cat (Chr (CsLit (ch "]")))
             (Cat (Star false (Chr CsDot))
                (Alt (Chr (CsLit BEL))
                   (Cat (Chr (CsLit ESC)) (Chr (CsLit (ch "\")))))))
          (* [@-Z\\-_] *)
          (Chr (CsUnion (CsRange (ch "@") (ch "Z"))
                  (CsRange (ch "\") (ch "_")))))).

Definition has_ansi (s : pystr) : bool :=
  found (re_search ANSI_FLAGS ANSI_RE s).

Definition has_carriage_returns (s : pystr) : bool :=
  contains_char CR s.

(** The pattern [(^|\s)-x(\s|,|$)] that [find_flag_mentions] uses with
    [x] one of h, q, v, d; compiled with no flag. *)
Definition NO_FLAGS : re_flags := {| DOTALL := false |}.

Definition short_flag_re (x : N) : regex :=
  Cat (Alt Bol (Chr CsSpace))
    (Cat (Chr (CsLit (ch "-")))
       (Cat (Chr (CsLit x))
          (Alt (Chr CsSpace) (Alt (Chr (CsLit (ch ","))) Eol)))).

(** ** Bytes to text *)

(** [10xxxxxx]: a continuation byte of UTF-8. *)
Definition is_continuation (c : N) : bool := (128 <=? c) && (c <? 192).

Definition REPLACEMENT : N := 65533.   (* U+FFFD *)

(** [b.decode("utf-8", errors="replace")]: the decoder of CPython.  An
    invalid start byte is replaced alone; a sequence cut short by a byte
    that cannot continue it is replaced up to that byte, where decoding
    resumes; a sequence cut short by the end of the input is replaced as
    a whole.  Overlong forms, surrogates and code points above U+10FFFF
    are invalid. *)
Fixpoint utf8_decode_replace (b : pybytes) : pystr :=
  match b with
  | [] => []
  | c :: b1 =>
      if c <? 128 then c :: utf8_decode_replace b1
      else if c <? 194 then REPLACEMENT :: utf8_decode_replace b1
      else if c <? 224 then
        match b1 with
        | [] => [REPLACEMENT]
        | c2 :: b2 =>
            if is_continuation c2
            then N.lor (N.shiftl (N.land c 31) 6) (N.land c2 63)
                 :: utf8_decode_replace b2
            else REPLACEMENT :: utf8_decode_replace b1
        end
      else if c <? 240 then
        match b1 with
        | [] => [REPLACEMENT]
        | c2 :: b2 =>
            if negb (is_continuation c2)
               || (if c2 <? 160 then c =? 224 else c =? 237)
            then REPLACEMENT :: utf8_decode_replace b1
            else
              match b2 with
              | [] => [REPLACEMENT]
              | c3 :: b3 =>
                  if is_continuation c3
                  then N.lor (N.shiftl (N.land c 15) 12)
                         (N.lor (N.shiftl (N.land c2 63) 6) (N.land c3 63))
                       :: utf8_decode_replace b3
                  else REPLACEMENT :: utf8_decode_replace b2
              end
        end
      else if c <? 245 then
        match b1 with
        | [] => [REPLACEMENT]
        | c2 :: b2 =>
            if negb (is_continuation c2)
               || (if c2 <? 144 then c =? 240 else c =? 244)
            then REPLACEMENT :: utf8_decode_replace b1
            else
              match b2 with
              | [] => [REPLACEMENT]
              | c3 :: b3 =>
                  if negb (is_continuation c3)
                  then REPLACEMENT :: utf8_decode_replace b2
                  else
                    match b3 with
                    | [] => [REPLACEMENT]
                    | c4 :: b4 =>
                        if is_continuation c4
                        then N.lor (N.shiftl (N.land c 7) 18)
                               (N.lor (N.shiftl (N.land c2 63) 12)
                                  (N.lor (N.shiftl (N.land c3 63) 6)
                                     (N.land c4 63)))
                             :: utf8_decode_replace b4
                        else REPLACEMENT :: utf8_decode_replace b3
                    end
              end
        end
      else REPLACEMENT :: utf8_decode_replace b1
  end.

Definition _decode (b : pybytes) : pystr := utf8_decode_replace b.

(** [x or b""] for an optional [bytes] value. *)
Definition bytes_or_empty (x : option pybytes) : pybytes :=
  match x with
  | Some (c :: b) => c :: b
  | Some [] | None => []
  end.

(** [str(n)] and [f"{n}"] for an [int]. *)
Definition str_of_int (n : Z) : pystr :=
  py (NilZero.string_of_int (Z.to_int n)).

(** [s.splitlines()]: the line boundaries of [str], with "\r\n" taken as
    one; no empty last line. *)
Definition is_linebreak (c : N) : bool :=
  ((10 <=? c) && (c <=? 13)) || ((28 <=? c) && (c <=? 30))
  || (c =? 133) || (c =? 8232) || (c =? 8233).

Fixpoint splitlines_from (cur : pystr) (s : pystr) : list pystr :=
  match s with
  | [] => match cur with [] => [] | _ => [rev cur] end
  | c :: s1 =>
      if is_linebreak c then
        rev cur ::
        match s1 with
        | c2 :: s2 =>
            if (c =? 13) && (c2 =? 10) then splitlines_from [] s2
            else splitlines_from [] s1
        | [] => splitlines_from [] s1
        end
      else splitlines_from (c :: cur) s1
  end.

Definition splitlines (s : pystr) : list pystr := splitlines_from [] s.

(** [sep.join(parts)]. *)
Fixpoint join (sep : pystr) (parts : list pystr) : pystr :=
  match parts with
  | [] => []
  | [p] => p
  | p :: rest => p ++ sep ++ join sep rest
  end.

(** ** The data of the script *)

Record RunResult : Type := mkRunResult {
  argv : list pystr;
  returncode : option Z;
  stdout : pystr;
  stderr : pystr;
  timed_out : bool
}.

(** [level] is one of the strings PASS, WARN, FAIL. *)
Record Finding : Type := mkFinding {
  level : pystr;
  title : pystr;
  details : pystr
}.

#[global] Instance Finding_eq_dec : EqDecision Finding.
Proof. solve_decision. Defined.

(** [Finding(level, title)]: [details] defaults to the empty string. *)
Definition finding (lvl ttl : pystr) : Finding := mkFinding lvl ttl [].

(** The namespace that [argparse] returns. *)
Record Args : Type := mkArgs {
  timeout : float;
  strict : bool;
  print_output : bool;
  cmd : list pystr
}.

(** ** The process and its effects *)

(** A dictionary from strings to strings, such as [os.environ]. *)
Abbreviation pydict := (gmap (list N) (list N)).

(** A reference to a dictionary object: [os.environ] itself, or an object
    allocated by the script. *)
Inductive ref : Type :=
| OsEnviron
| Obj (n : nat).

Inductive stream : Type := sys_stdout | sys_stderr.

(** What the auditor does to the world around it. *)
Inductive event : Type :=
| EvSpawn (child_argv : list pystr) (child_env : pydict) (timeout_s : float)
| EvWrite (f : stream) (text : pystr).

Record state : Type := mkState {
  os_environ : pydict;          (* the contents of [os.environ] *)
  objects : list pydict;        (* the dictionaries allocated so far *)
  children : nat;               (* how many children were spawned *)
  trace : list event
}.

(** What [subprocess.run(..., check=False, timeout=...)] does. *)
Inductive proc_outcome : Type :=
| Completed (rc : Z) (out err : pybytes)        (* a CompletedProcess *)
| FileNotFoundError
| TimeoutExpired (out err : option pybytes)     (* partial output or None *)
| OtherError.                (* any other exception, e.g. PermissionError *)

Inductive pyexn : Type :=
| Uncaught            (* an exception of the child launch left uncaught *)
| Dangling.           (* a reference to no object *)

Inductive result (A : Type) : Type :=
| Ok (a : A)
| Raised (e : pyexn).
Arguments Ok {A} a.
Arguments Raised {A} e.

Definition M (A : Type) : Type := state -> result A * state.

Definition ret {A} (a : A) : M A := fun st => (Ok a, st).

Definition raise {A} (e : pyexn) : M A := fun st => (Raised e, st).

Definition bind {A B} (c : M A) (k : A -> M B) : M B :=
  fun st =>
    match c st with
    | (Ok a, st') => k a st'
    | (Raised e, st') => (Raised e, st')
    end.

Notation "x <- c1 ;; c2" := (bind c1 (fun x => c2))
  (at level 100, c1 at next level, right associativity).
Notation "c1 ;; c2" := (bind c1 (fun _ => c2))
  (at level 100, right associativity).

Definition emit (e : event) : M unit :=
  fun st =>
    (Ok tt, mkState (os_environ st) (objects st) (children st)
              (trace st ++ [e])).

(** [print(text, file=f)]. *)
Definition print (f : stream) (text : pystr) : M unit :=
  emit (EvWrite f (text ++ NL)).

Definition dict_read (r : ref) : M pydict :=
  fun st =>
    match r with
    | OsEnviron => (Ok (os_environ st), st)
    | Obj n =>
        match objects st !! n with
        | Some d => (Ok d, st)
        | None => (Raised Dangling, st)
        end
    end.

Definition dict_write (r : ref) (d : pydict) : M unit :=
  fun st =>
    match r with
    | OsEnviron =>
        (Ok tt, mkState d (objects st) (children st) (trace st))
    | Obj n =>
        if (n <? length (objects st))%nat
        then (Ok tt, mkState (os_environ st) (<[n:=d]> (objects st))
                       (children st) (trace st))
        else (Raised Dangling, st)
    end.

(** [r.copy()]: a new dictionary object with the same items. *)
Definition dict_copy (r : ref) : M ref :=
  d <- dict_read r ;;
  fun st =>
    (Ok (Obj (length (objects st))),
     mkState (os_environ st) (objects st ++ [d]) (children st) (trace st)).

(** [r.update(other)]: the items of [other] replace those of [r]. *)
Definition dict_update (r : ref) (other : pydict) : M unit :=
  d <- dict_read r ;;
  dict_write r (other ∪ d).

(** Truth value of an optional dictionary: neither [None] nor empty. *)
Definition dict_truthy (o : option pydict) : bool :=
  match o with
  | Some d => negb (bool_decide (d = ∅))
  | None => false
  end.

(** The three levels. *)
Definition PASS : pystr := py "PASS".
Definition WARN : pystr := py "WARN".
Definition FAIL : pystr := py "FAIL".

Section Platform.

Set Default Proof Using "Type".

(** What lies outside the script: the operating system that launches the
    children, the file system that the pre-flight check looks at, and the
    Unicode tables behind [str.lower]. *)

(** [subprocess_run n argv env t]: what happens when the auditor, having
    spawned [n] children before, runs [argv] with the environment [env]
    and the timeout [t]. *)
Variable subprocess_run : nat -> list pystr -> pydict -> float -> proc_outcome.

(** [shutil.which(exe)] and [os.path.exists(exe)]. *)
Variable shutil_which : pystr -> option pystr.
Variable os_path_exists : pystr -> bool.

(** [text.lower()].  On ASCII text it maps the capital letters to the
    small ones, character by character; the rest is in the Unicode
    tables. *)
Variable str_lower : pystr -> pystr.

(** ** ProcessRunner *)

(** The call [subprocess.run(list(argv), stdout=PIPE, stderr=PIPE,
    env=env, timeout=timeout_s, check=False)], with the exceptions it
    may raise as values. *)
Definition spawn (child_argv : list pystr) (env : ref) (timeout_s : float)
  : M proc_outcome :=
  e <- dict_read env ;;
  emit (EvSpawn child_argv e timeout_s) ;;
  fun st =>
    (Ok (subprocess_run (children st) child_argv e timeout_s),
     mkState (os_environ st) (objects st) (S (children st)) (trace st)).

Definition run_cmd (argv : list pystr) (timeout_s : float)
    (env_overrides : option pydict) : M RunResult :=
  env <- dict_copy OsEnviron ;;
  (if dict_truthy env_overrides
   then dict_update env (default ∅ env_overrides)
   else ret tt) ;;
  proc <- spawn argv env timeout_s ;;
  match proc with
  | Completed rc out err =>
      ret (mkRunResult argv (Some rc) (_decode out) (_decode err) false)
  | FileNotFoundError =>
      ret (mkRunResult argv None [] (py "Command not found.") false)
  | TimeoutExpired out err =>
      ret (mkRunResult argv None
             (_decode (bytes_or_empty out)) (_decode (bytes_or_empty err))
             true)
  | OtherError => raise Uncaught
  end.

(** ** OutputAnalyzer *)

Definition looks_like_help (text : pystr) : bool :=
  let t := str_lower text in
  existsb (fun k => contains k t)
    [py "usage:"; NL ++ py "usage"; py "synopsis"; py "options";
     py "commands"].

(** [re.search(r"(^|\s)-x(\s|,|$)", t) is not None]. *)
Definition short_flag (x : N) (t : pystr) : bool :=
  found (re_search NO_FLAGS (short_flag_re x) t).

Definition find_flag_mentions (help_text : pystr) : gmap (list N) bool :=
  let t := help_text in
  list_to_map
    [ (py "--help", contains (py "--help") t);
      (py "-h", short_flag (ch "h") t);
      (py "--version", contains (py "--version") t);
      (py "--json", contains (py "--json") t);
      (py "--plain", contains (py "--plain") t);
      (py "--no-color", contains (py "--no-color") t);
      (py "NO_COLOR", contains (py "NO_COLOR") t);
      (py "--no-input", contains (py "--no-input") t);
      (py "--dry-run", contains (py "--dry-run") t);
      (py "--force", contains (py "--force") t);
      (py "--quiet", contains (py "--quiet") t || short_flag (ch "q") t);
      (py "--verbose", contains (py "--verbose") t || short_flag (ch "v") t);
      (py "--debug", contains (py "--debug") t || short_flag (ch "d") t) ].

(** Truth value of [flags.get(key)]: [None] when the key is missing. *)
Definition mentioned (flags : gmap (list N) bool) (key : pystr) : bool :=
  match flags !! key with
  | Some b => b
  | None => false
  end.

(** ** Reporting *)

Definition icon (lvl : pystr) : pystr :=
  let icons : gmap (list N) (list N) :=
    list_to_map [ (py "PASS", py "[PASS]"); (py "WARN", py "[WARN]");
                  (py "FAIL", py "[FAIL]") ] in
  default (py "[INFO]") (icons !! lvl).

Definition format_findings (findings : list Finding) : pystr :=
  let lines :=
    findings ≫= (fun f =>
      (icon (level f) ++ py " " ++ title f)
      :: (if truthy (strip (details f))
          then List.map (fun line => py "  " ++ line)
                 (splitlines (rstrip (details f)))
          else [])) in
  join NL lines ++ NL.

(** ** ProbeSuite: the rules, block by block *)

(** Lines 209-270: the rules of the [--help] probe. *)
Definition help_exit_finding (rc : Z) : Finding :=
  if bool_decide (rc ≠ 0%Z)
  then mkFinding FAIL (py "--help exit code was " ++ str_of_int rc)
         (py "Help should exit 0.")
  else finding PASS (py "--help exits with code 0").

Definition help_content_finding (help_res : RunResult) : Finding :=
  let combined := strip (stdout help_res ++ NL ++ stderr help_res) in
  if negb (truthy combined)
  then finding FAIL (py "--help produced no output")
  else if looks_like_help combined
  then finding PASS
         (py "--help output looks like help (usage/options/commands detected)")
  else mkFinding WARN (py "--help output did not obviously look like help")
         (py "Check formatting and content.").

Definition help_channel_finding (help_res : RunResult) : Finding :=
  if truthy (strip (stdout help_res))
     && negb (truthy (strip (stderr help_res)))
  then finding PASS (py "Help printed to stdout")
  else if truthy (strip (stderr help_res))
          && negb (truthy (strip (stdout help_res)))
  then mkFinding WARN (py "Help printed to stderr")
         (py "Common convention is help on stdout; stderr is typically for errors.")
  else mkFinding WARN (py "Help printed to both stdout and stderr")
         (py "Prefer help on stdout; reserve stderr for errors/warnings.").

(** [x.strip() or "Unknown error."] *)
Definition stripped_or_unknown (x : pystr) : pystr :=
  if truthy (strip x) then strip x else py "Unknown error.".

Definition help_findings (help_res : RunResult) : list Finding :=
  if timed_out help_res
  then [mkFinding FAIL (py "--help timed out")
          (py "Help should return quickly.")]
  else
    match returncode help_res with
    | None =>
        [mkFinding FAIL (py "--help failed to execute")
           (stripped_or_unknown (stderr help_res))]
    | Some rc =>
        [help_exit_finding rc; help_content_finding help_res;
         help_channel_finding help_res]
    end.

(** Lines 282-297: the rules of the [-h] probe. *)
Definition short_help_findings (h_res : RunResult) : list Finding :=
  if timed_out h_res
  then [mkFinding WARN (py "-h timed out")
          (py "If you support -h, it should return quickly.")]
  else if bool_decide (returncode h_res = Some 0%Z)
          && (truthy (strip (stdout h_res))
              || truthy (strip (stderr h_res)))
  then [finding PASS (py "-h works (exit 0)")]
  else [mkFinding WARN (py "-h did not behave like help")
          (py "If you intentionally use -h for something else, consider avoiding that.")].

(** Lines 300-367: the rules of the invalid-flag probe. *)
Definition bad_flag : pystr := py "--definitely-not-a-real-flag-xyz".

Definition bad_exit_finding (rc : Z) : Finding :=
  if bool_decide (rc = 0%Z)
  then mkFinding FAIL (py "Unknown flag returned exit code 0")
         (py "Unknown flags should be an error.")
  else finding PASS
         (py "Unknown flag returns non-zero (" ++ str_of_int rc ++ py ")").

Definition bad_stderr_finding (bad_res : RunResult) : Finding :=
  if truthy (strip (stderr bad_res))
  then finding PASS (py "Unknown-flag error printed to stderr")
  else mkFinding WARN (py "Unknown-flag error not printed to stderr")
         (py "Prefer errors on stderr.").

Definition bad_hint_finding (bad_res : RunResult) : Finding :=
  if contains (py "--help") (stdout bad_res ++ stderr bad_res)
  then finding PASS (py "Unknown-flag error mentions --help")
  else mkFinding WARN (py "Unknown-flag error does not mention --help")
         (py "Consider adding a hint to discover help.").

Definition noisy_markers : list pystr :=
  [py "Traceback (most recent call last)"; py "panic:"; py "stack trace";
   py "Stack trace"].

Definition bad_noise_findings (bad_res : RunResult) : list Finding :=
  if existsb (fun m => contains m (stdout bad_res ++ stderr bad_res))
       noisy_markers
  then [mkFinding WARN (py "Error output includes a stack trace marker")
          (py "Prefer stack traces only in --debug/--verbose mode.")]
  else [].

Definition invalid_flag_findings (bad_res : RunResult) : list Finding :=
  if timed_out bad_res
  then [mkFinding FAIL (py "Invalid-flag probe timed out")
          (py "Invalid input should fail fast with guidance.")]
  else
    match returncode bad_res with
    | None =>
        [mkFinding FAIL (py "Invalid-flag probe failed to execute")
           (stripped_or_unknown (stderr bad_res))]
    | Some rc =>
        [bad_exit_finding rc; bad_stderr_finding bad_res;
         bad_hint_finding bad_res]
        ++ bad_noise_findings bad_res
    end.

(** Lines 378-436: the conventions that the help text should mention. *)
Definition help_text_of (help_res : RunResult) : pystr :=
  stdout help_res ++ NL ++ stderr help_res.

Definition convention_findings (help_res : RunResult) : list Finding :=
  let help_text := help_text_of help_res in
  let flag_mentions := find_flag_mentions help_text in
  [ if mentioned flag_mentions (py "--version")
    then finding PASS (py "Help mentions --version")
    else mkFinding WARN (py "Help does not mention --version")
           (py "Consider supporting --version for discoverability.");
    if mentioned flag_mentions (py "--json")
    then finding PASS (py "Help mentions --json")
    else mkFinding WARN (py "Help does not mention --json")
           (py "If scripts may consume output, consider a structured JSON mode.");
    if mentioned flag_mentions (py "--plain")
    then finding PASS (py "Help mentions --plain")
    else mkFinding WARN (py "Help does not mention --plain")
           (py "If human output is formatted, a stable plain mode helps scripting.");
    if mentioned flag_mentions (py "--no-color")
       || mentioned flag_mentions (py "NO_COLOR")
    then finding PASS
           (py "Help mentions color controls (--no-color and/or NO_COLOR)")
    else mkFinding WARN (py "Help does not mention color controls")
           (py "Consider supporting --no-color and NO_COLOR.");
    if mentioned flag_mentions (py "--no-input")
    then finding PASS (py "Help mentions --no-input")
    else mkFinding WARN (py "Help does not mention --no-input")
           (py "If you prompt, consider a non-interactive escape hatch.") ].

(** Lines 439-461: escape sequences and carriage returns in the help. *)
Definition ansi_findings (help_res : RunResult) : list Finding :=
  [ if has_ansi (stdout help_res) || has_ansi (stderr help_res)
    then mkFinding WARN
           (py "ANSI escape sequences detected in --help output (captured/non-TTY)")
           (py "Consider disabling color/formatting when output is not a TTY, or when NO_COLOR is set.")
    else finding PASS
           (py "No ANSI escape sequences detected in captured --help output") ]
  ++
  (if has_carriage_returns (stdout help_res)
      || has_carriage_returns (stderr help_res)
   then [mkFinding WARN (py "Carriage returns detected in --help output")
           (py "This can indicate animations/progress behavior; ensure you don't animate when not a TTY.")]
   else []).

(** Lines 467-478 and 483-494: the two environment probes. *)
Definition no_color_findings (no_color_res : RunResult) : list Finding :=
  if has_ansi (stdout no_color_res) || has_ansi (stderr no_color_res)
  then [mkFinding WARN (py "ANSI still present with NO_COLOR=1")
          (py "Consider honoring NO_COLOR to disable color output.")]
  else [finding PASS
          (py "NO_COLOR=1 produced no ANSI sequences (best-effort check)")].

Definition dumb_term_findings (dumb_term_res : RunResult) : list Finding :=
  if has_ansi (stdout dumb_term_res) || has_ansi (stderr dumb_term_res)
  then [mkFinding WARN (py "ANSI still present with TERM=dumb")
          (py "Consider disabling ANSI when TERM=dumb.")]
  else [finding PASS
          (py "TERM=dumb produced no ANSI sequences (best-effort check)")].

(** Lines 272-278 and 369-375: [--print-output]. *)
Definition print_probe (header : pystr) (res : RunResult) : M unit :=
  print sys_stdout header ;;
  print sys_stdout (py "--- stdout ---") ;;
  print sys_stdout (rstrip (stdout res)) ;;
  print sys_stdout (py "--- stderr ---") ;;
  print sys_stdout (rstrip (stderr res)) ;;
  print sys_stdout [].

Definition when (b : bool) (c : M unit) : M unit :=
  if b then c else ret tt.

(** Lines 205-494 of [main]: the probes in their order, and the findings
    they add to the list. *)
Definition main_probes (args : Args) (cmd : list pystr) : M (list Finding) :=
  let findings : list Finding := [] in
  (* Probe: --help *)
  help_res <- run_cmd (cmd ++ [py "--help"]) (timeout args) None ;;
  let findings := findings ++ help_findings help_res in
  when (print_output args)
    (print_probe (py "== PROBE: --help ==") help_res) ;;
  (* Probe: -h *)
  h_res <- run_cmd (cmd ++ [py "-h"]) (timeout args) None ;;
  let findings := findings ++ short_help_findings h_res in
  (* Probe: invalid flag *)
  bad_res <- run_cmd (cmd ++ [bad_flag]) (timeout args) None ;;
  let findings := findings ++ invalid_flag_findings bad_res in
  when (print_output args)
    (print_probe (py "== PROBE: invalid flag ==") bad_res) ;;
  (* Analyze help for common conventions *)
  let findings := findings ++ convention_findings help_res in
  (* ANSI / animation checks *)
  let findings := findings ++ ansi_findings help_res in
  (* NO_COLOR / TERM=dumb *)
  no_color_res <- run_cmd (cmd ++ [py "--help"]) (timeout args)
                    (Some {[ py "NO_COLOR" := py "1" ]}) ;;
  let findings := findings ++ no_color_findings no_color_res in
  dumb_term_res <- run_cmd (cmd ++ [py "--help"]) (timeout args)
                     (Some {[ py "TERM" := py "dumb" ]}) ;;
  let findings := findings ++ dumb_term_findings dumb_term_res in
  ret findings.

(** ** Aggregator *)

(** [sum(1 for f in findings if f.level == lvl)]. *)
Definition count_level (lvl : pystr) (findings : list Finding) : Z :=
  fold_left
    (fun acc f => if bool_decide (level f = lvl) then (acc + 1)%Z else acc)
    findings 0%Z.

(** Lines 497-507: the summary and the exit status. *)
Definition exit_status (findings : list Finding) (strict_mode : bool) : Z :=
  let fail := count_level FAIL findings in
  let warn := count_level WARN findings in
  if (0 <? fail)%Z then 1%Z
  else if strict_mode && (0 <? warn)%Z then 1%Z
  else 0%Z.

Definition summarize (findings : list Finding) (strict_mode : bool) : M Z :=
  let fail := count_level FAIL findings in
  let warn := count_level WARN findings in
  print sys_stdout (format_findings findings) ;;
  print sys_stdout
    (py "Summary: " ++ str_of_int fail ++ py " FAIL, " ++ str_of_int warn
       ++ py " WARN") ;;
  ret (exit_status findings strict_mode).

(** ** main *)

Definition USAGE_ERROR : pystr :=
  py "Error: no command provided." ++ NL ++ NL ++ py "Usage:" ++ NL
  ++ py "  python scripts/cli_audit.py -- <command> [args...]" ++ NL.

(** Lines 193-195: drop a leading [--]. *)
Definition target_command (given : list pystr) : list pystr :=
  match given with
  | first :: rest => if bool_decide (first = py "--") then rest else given
  | [] => given
  end.

(** Line 201: neither on the search path nor a path that exists. *)
Definition not_located (exe : pystr) : bool :=
  match shutil_which exe with
  | None => negb (os_path_exists exe)
  | Some _ => false
  end.

(** [main], from the parsed arguments to the exit status. *)
Definition main (args : Args) : M Z :=
  match cmd args with
  | [] => print sys_stderr USAGE_ERROR ;; ret 2%Z
  | _ :: _ =>
      match target_command (cmd args) with
      | [] =>
          print sys_stderr (py "Error: no command provided after --.") ;;
          ret 2%Z
      | exe :: rest =>
          if not_located exe
          then print sys_stderr (py "Error: command not found: " ++ exe) ;;
               ret 127%Z
          else
            findings <- main_probes args (exe :: rest) ;;
            summarize findings (strict args)
      end
  end.

(** ** The vocabulary of the specification *)

(** What it means for a pattern to match the text [s] from position [i]
    to position [j], whatever the order in which a matcher finds it. *)
Inductive matches (fl : re_flags) (s : pystr) : regex → nat → nat → Prop :=
| matches_empty i : matches fl s Empty i i
| matches_chr cs i c :
    s !! i = Some c → charset_mem fl cs c = true →
    matches fl s (Chr cs) i (S i)
| matches_cat r1 r2 i k j :
    matches fl s r1 i k → matches fl s r2 k j →
    matches fl s (Cat r1 r2) i j
| matches_alt_l r1 r2 i j :
    matches fl s r1 i j → matches fl s (Alt r1 r2) i j
| matches_alt_r r1 r2 i j :
    matches fl s r2 i j → matches fl s (Alt r1 r2) i j
| matches_star_stop greedy r i : matches fl s (Star greedy r) i i
| matches_star_more greedy r i k j :
    matches fl s r i k → matches fl s (Star greedy r) k j →
    matches fl s (Star greedy r) i j
| matches_bol : matches fl s Bol 0 0
| matches_eol_end : matches fl s Eol (length s) (length s)
| matches_eol_newline i :
    S i = length s → s !! i = Some 10 → matches fl s Eol i i.

(** [k] occurs in [t] as a contiguous run of characters. *)
Definition is_substring (k t : pystr) : Prop :=
  ∃ pre post, t = pre ++ k ++ post.

(** [str.lower] on ASCII letters; the other ASCII characters stay. *)
Definition ascii_lower (c : N) : N :=
  if (65 <=? c) && (c <=? 90) then c + 32 else c.

(** The short flag [-x] stands at position [i] of [t] as a word of its
    own: the start of the text or a white space before it; a white space,
    a comma or the end of the text after it. *)
Definition short_flag_at (x : N) (t : pystr) (i : nat) : Prop :=
  t !! i = Some (ch "-") ∧ t !! S i = Some x ∧
  (i = 0%nat ∨ ∃ j c, i = S j ∧ t !! j = Some c ∧ is_space c = true) ∧
  (t !! S (S i) = None ∨
   ∃ c, t !! S (S i) = Some c ∧ (is_space c = true ∨ c = ch ",")).

(** The number of findings of a level. *)
Definition number_of (lvl : pystr) (findings : list Finding) : nat :=
  length (List.filter (fun f => bool_decide (level f = lvl)) findings).

(** The three outcomes of a run. *)
Definition normal_exit (r : RunResult) : Prop :=
  is_Some (returncode r) ∧ timed_out r = false.

Definition run_timed_out (r : RunResult) : Prop :=
  returncode r = None ∧ timed_out r = true.

Definition failed_to_start (r : RunResult) : Prop :=
  returncode r = None ∧ timed_out r = false
  ∧ stderr r = py "Command not found.".

(** The environment that a child receives. *)
Definition child_environment (env_overrides : option pydict)
    (environ : pydict) : pydict :=
  default ∅ env_overrides ∪ environ.

(** The result that [run_cmd] builds from what the launch did; [None]
    when the exception is not one that [run_cmd] catches. *)
Definition run_result (argv : list pystr) (proc : proc_outcome)
  : option RunResult :=
  match proc with
  | Completed rc out err =>
      Some (mkRunResult argv (Some rc) (_decode out) (_decode err) false)
  | FileNotFoundError =>
      Some (mkRunResult argv None [] (py "Command not found.") false)
  | TimeoutExpired out err =>
      Some (mkRunResult argv None (_decode (bytes_or_empty out))
              (_decode (bytes_or_empty err)) true)
  | OtherError => None
  end.

(** The launches of [main_probes], numbered from 0: the arguments added
    to the command and the environment overrides. *)
Definition probe_suffix (k : nat) : pystr :=
  match k with
  | 1%nat => py "-h"
  | 2%nat => bad_flag
  | _ => py "--help"
  end.

Definition probe_overrides (k : nat) : option pydict :=
  match k with
  | 3%nat => Some {[ py "NO_COLOR" := py "1" ]}
  | 4%nat => Some {[ py "TERM" := py "dumb" ]}
  | _ => None
  end.

(** What launch number [k] of a suite started in state [st] does. *)
Definition probe_outcome (args : Args) (cmd : list pystr) (st : state)
    (k : nat) : proc_outcome :=
  subprocess_run (k + children st) (cmd ++ [probe_suffix k])
    (child_environment (probe_overrides k) (os_environ st)) (timeout args).

(** What [str.lower] does on ASCII text. *)
Definition lower_on_ascii : Prop :=
  ∀ s : pystr, Forall (fun c => c < 128) s →
    str_lower s = List.map ascii_lower s.

(** The findings of a suite started in state [st], from what its five
    launches do; [None] when a launch raises an exception that [run_cmd]
    does not catch. *)
Definition suite_findings (args : Args) (cmd : list pystr) (st : state)
  : option (list Finding) :=
  help_res ← run_result (cmd ++ [py "--help"]) (probe_outcome args cmd st 0);
  h_res ← run_result (cmd ++ [py "-h"]) (probe_outcome args cmd st 1);
  bad_res ← run_result (cmd ++ [bad_flag]) (probe_outcome args cmd st 2);
  no_color_res ←
    run_result (cmd ++ [py "--help"]) (probe_outcome args cmd st 3);
  dumb_term_res ←
    run_result (cmd ++ [py "--help"]) (probe_outcome args cmd st 4);
  Some (help_findings help_res ++ short_help_findings h_res
        ++ invalid_flag_findings bad_res ++ convention_findings help_res
        ++ ansi_findings help_res ++ no_color_findings no_color_res
        ++ dumb_term_findings dumb_term_res).

(** The text that [--print-output] writes for a probe. *)
Definition probe_printout (header : pystr) (res : RunResult) : list event :=
  [EvWrite sys_stdout (header ++ NL);
   EvWrite sys_stdout (py "--- stdout ---" ++ NL);
   EvWrite sys_stdout (rstrip (stdout res) ++ NL);
   EvWrite sys_stdout (py "--- stderr ---" ++ NL);
   EvWrite sys_stdout (rstrip (stderr res) ++ NL);
   EvWrite sys_stdout ([] ++ NL)].

(** The findings that the claims name. *)
Definition unknown_flag_fail : Finding :=
  mkFinding FAIL (py "Unknown flag returned exit code 0")
    (py "Unknown flags should be an error.").

Definition unknown_flag_pass (rc : Z) : Finding :=
  finding PASS (py "Unknown flag returns non-zero (" ++ str_of_int rc ++ py ")").

Definition help_stdout_pass : Finding :=
  finding PASS (py "Help printed to stdout").

Definition help_stderr_warn : Finding :=
  mkFinding WARN (py "Help printed to stderr")
    (py "Common convention is help on stdout; stderr is typically for errors.").

Definition help_both_warn : Finding :=
  mkFinding WARN (py "Help printed to both stdout and stderr")
    (py "Prefer help on stdout; reserve stderr for errors/warnings.").

Definition no_color_pass : Finding :=
  finding PASS (py "NO_COLOR=1 produced no ANSI sequences (best-effort check)").

Definition no_color_warn : Finding :=
  mkFinding WARN (py "ANSI still present with NO_COLOR=1")
    (py "Consider honoring NO_COLOR to disable color output.").

Definition dumb_term_pass : Finding :=
  finding PASS (py "TERM=dumb produced no ANSI sequences (best-effort check)").

Definition dumb_term_warn : Finding :=
  mkFinding WARN (py "ANSI still present with TERM=dumb")
    (py "Consider disabling ANSI when TERM=dumb.").

(** The five findings of a help text that mentions no convention. *)
Definition conventions_all_warn : list Finding :=
  [ mkFinding WARN (py "Help does not mention --version")
      (py "Consider supporting --version for discoverability.");
    mkFinding WARN (py "Help does not mention --json")
      (py "If scripts may consume output, consider a structured JSON mode.");
    mkFinding WARN (py "Help does not mention --plain")
      (py "If human output is formatted, a stable plain mode helps scripting.");
    mkFinding WARN (py "Help does not mention color controls")
      (py "Consider supporting --no-color and NO_COLOR.");
    mkFinding WARN (py "Help does not mention --no-input")
      (py "If you prompt, consider a non-interactive escape hatch.") ].

(** The findings of the convention checks and of the checks for escape
    sequences and carriage returns, one by one. *)
Definition version_pass : Finding :=
  finding PASS (py "Help mentions --version").

Definition version_warn : Finding :=
  mkFinding WARN (py "Help does not mention --version")
    (py "Consider supporting --version for discoverability.").

Definition json_pass : Finding := finding PASS (py "Help mentions --json").

Definition json_warn : Finding :=
  mkFinding WARN (py "Help does not mention --json")
    (py "If scripts may consume output, consider a structured JSON mode.").

Definition plain_pass : Finding := finding PASS (py "Help mentions --plain").

Definition plain_warn : Finding :=
  mkFinding WARN (py "Help does not mention --plain")
    (py "If human output is formatted, a stable plain mode helps scripting.").

Definition colour_pass : Finding :=
  finding PASS
    (py "Help mentions color controls (--no-color and/or NO_COLOR)").

Definition colour_warn : Finding :=
  mkFinding WARN (py "Help does not mention color controls")
    (py "Consider supporting --no-color and NO_COLOR.").

Definition no_input_pass : Finding :=
  finding PASS (py "Help mentions --no-input").

Definition no_input_warn : Finding :=
  mkFinding WARN (py "Help does not mention --no-input")
    (py "If you prompt, consider a non-interactive escape hatch.").

Definition ansi_pass : Finding :=
  finding PASS
    (py "No ANSI escape sequences detected in captured --help output").

Definition ansi_warn : Finding :=
  mkFinding WARN
    (py "ANSI escape sequences detected in --help output (captured/non-TTY)")
    (py "Consider disabling color/formatting when output is not a TTY, or when NO_COLOR is set.").

Definition carriage_warn : Finding :=
  mkFinding WARN (py "Carriage returns detected in --help output")
    (py "This can indicate animations/progress behavior; ensure you don't animate when not a TTY.").

(** What a convention check tells of a text: finding [f] is the PASS
    finding and one of the tokens occurs in the text, or it is the WARN
    finding and none of them does. *)
Definition told_by (tokens : list pystr) (text : pystr)
    (pass warn f : Finding) : Prop :=
  (f = pass ∧ ∃ tok, tok ∈ tokens ∧ is_substring tok text)
  ∨ (f = warn ∧ ∀ tok, tok ∈ tokens → ¬ is_substring tok text).

(** A text has output: some character of it is not white space. *)
Definition has_output (s : pystr) : Prop :=
  Exists (fun c => is_space c = false) s.

(** No launch of the suite raises an exception that [run_cmd] lets
    through. *)
Definition launches_caught (args : Args) (cmd : list pystr) (st : state)
  : Prop :=
  ∀ k, (k < 5)%nat → probe_outcome args cmd st k ≠ OtherError.

(** ** More vocabulary: the rest of the script *)








Definition long_tokens : list pystr :=
  [py "--help"; py "--version"; py "--json"; py "--plain";
   py "--no-color"; py "NO_COLOR"; py "--no-input"; py "--dry-run";
   py "--force"].













(** ** Sample platforms *)

(** [str.lower] restricted to the ASCII letters. *)
Definition sample_lower (s : pystr) : pystr := List.map ascii_lower s.

(** An auditor that has spawned nothing yet. *)
Definition sample_state : state :=
  mkState {[ py "PATH" := py "/usr/bin"; py "TERM" := py "xterm" ]} [] 0 [].

(** [cli_audit.py -- tool] with the default options. *)
Definition sample_args : Args :=
  mkArgs 10%float false false [py "--"; py "tool"].

(** A file system with the tool on the search path, and one without. *)
Definition on_path (exe : pystr) : option pystr :=
  Some (py "/usr/bin/" ++ exe).
Definition off_path (exe : pystr) : option pystr := None.
Definition no_such_file (exe : pystr) : bool := false.
Definition any_file (exe : pystr) : bool := true.

(** A tool that prints a usage line and exits with 0 whatever it is
    given. *)
Definition zero_tool (n : nat) (child_argv : list pystr) (env : pydict)
    (t : float) : proc_outcome :=
  Completed 0 (py "Usage: tool [OPTIONS]") [].

(** A tool that exits with 0 and prints nothing. *)
Definition silent_tool (n : nat) (child_argv : list pystr) (env : pydict)
    (t : float) : proc_outcome :=
  Completed 0 [] [].

(** A tool that colours its help and, when NO_COLOR or TERM is overridden,
    hangs after the first coloured line. *)
Definition colour_then_hang (n : nat) (child_argv : list pystr) (env : pydict)
    (t : float) : proc_outcome :=
  if bool_decide (env !! py "NO_COLOR" = Some (py "1"))
     || bool_decide (env !! py "TERM" = Some (py "dumb"))
  then TimeoutExpired (Some (ESC :: py "[31mUsage: tool")) None
  else Completed 0 (py "Usage: tool [OPTIONS]") [].

(** A tool that writes the start of its help, with a carriage return at
    the end of the line, and then hangs until the timeout. *)
Definition hanging_tool (n : nat) (child_argv : list pystr) (env : pydict)
    (t : float) : proc_outcome :=
  TimeoutExpired (Some (py "Usage: tool [--version] [--json]" ++ [CR])) None.

(** A path that exists and cannot be launched: every launch ends in
    [FileNotFoundError]. *)
Definition missing_tool (n : nat) (child_argv : list pystr) (env : pydict)
    (t : float) : proc_outcome :=
  FileNotFoundError.

(** ** Text *)

Lemma startswith_spec (p s : pystr) :
  startswith p s = true ↔ ∃ post, s = p ++ post.
Proof.
  revert s. induction p as [|a p IH]; intros s; simpl.
  - split; [intros _; by exists s | done].
  - destruct s as [|b s].
    + split; [done | intros [post H]; discriminate].
    + rewrite andb_true_iff, N.eqb_eq, IH. split.
      * intros [-> [post ->]]. by exists post.
      * intros [post H]. injection H as -> ->. split; [done | by exists post].
Qed.

Lemma contains_spec (k t : pystr) :
  contains k t = true ↔ is_substring k t.
Proof.
  unfold is_substring. induction t as [|c t IH]; simpl.
  - rewrite orb_false_r, startswith_spec. split.
    + intros [post H]. by exists [], post.
    + intros [pre [post H]]. symmetry in H.
      apply app_eq_nil in H as [-> H]. apply app_eq_nil in H as [-> ->].
      by exists [].
  - rewrite orb_true_iff, startswith_spec, IH. split.
    + intros [[post H] | [pre [post H]]].
      * by exists [], post.
      * exists (c :: pre), post. by rewrite H.
    + intros [[|c' pre] [post H]].
      * left. by exists post.
      * right. injection H as -> ->. by exists pre, post.
Qed.

Lemma existsb_contains (keys : list pystr) (t : pystr) :
  existsb (fun k => contains k t) keys = true
  ↔ ∃ k, k ∈ keys ∧ is_substring k t.
Proof.
  rewrite existsb_exists. split.
  - intros [k [Hin Hk]]. exists k.
    split; [by apply list_elem_of_In | by apply contains_spec].
  - intros [k [Hin Hk]]. exists k.
    split; [by apply list_elem_of_In | by apply contains_spec].
Qed.

Lemma lstrip_nil_iff (s : pystr) :
  lstrip s = [] ↔ Forall (fun c => is_space c = true) s.
Proof.
  induction s as [|c s IH]; simpl.
  - split; [constructor | done].
  - destruct (is_space c) eqn:E.
    + rewrite IH. split; [by constructor | by inversion 1].
    + split; [done | inversion 1; congruence].
Qed.

Lemma lstrip_head (s : pystr) (c : N) (l : pystr) :
  lstrip s = c :: l → is_space c = false.
Proof.
  induction s as [|a s IH]; simpl; [done|].
  destruct (is_space a) eqn:E; [done|].
  intros H. injection H as -> _. done.
Qed.

Lemma strip_nil_iff (s : pystr) :
  strip s = [] ↔ Forall (fun c => is_space c = true) s.
Proof.
  unfold strip, rstrip. split.
  - intros H. apply lstrip_nil_iff.
    destruct (lstrip s) as [|c l] eqn:E; [done|].
    assert (Hr : lstrip (rev (c :: l)) = []).
    { destruct (lstrip (rev (c :: l))) as [|x l0]; [done|].
      simpl in H. by destruct (rev l0). }
    apply lstrip_nil_iff, Forall_rev in Hr. rewrite rev_involutive in Hr.
    apply lstrip_head in E. inversion Hr; congruence.
  - intros H. apply lstrip_nil_iff in H. by rewrite H.
Qed.

(** A string is true after [strip] exactly when it has a character that
    is not white space. *)
Lemma truthy_strip (s : pystr) :
  truthy (strip s) = true ↔ Exists (fun c => is_space c = false) s.
Proof.
  destruct (strip s) as [|c l] eqn:E; simpl.
  - apply strip_nil_iff in E. split; [done|].
    intros H. apply Exists_exists in H as [c [Hc Hs]].
    rewrite Forall_forall in E. specialize (E c Hc). congruence.
  - split; [intros _ | done].
    destruct (decide (Forall (fun c => is_space c = true) s)) as [H|H].
    + apply strip_nil_iff in H. congruence.
    + apply not_Forall_Exists in H; [|intros x; apply _].
      eapply Exists_impl; [exact H|]. intros x Hx; simpl in Hx.
      by destruct (is_space x).
Qed.

(** ** The matcher *)

Lemma elem_ends_chr fl cs s i j :
  j ∈ ends fl (Chr cs) s i
  ↔ ∃ c, s !! i = Some c ∧ charset_mem fl cs c = true ∧ j = S i.
Proof.
  simpl. destruct (s !! i) as [c|].
  - destruct (charset_mem fl cs c) eqn:E.
    + rewrite list_elem_of_singleton. split.
      * intros ->. by exists c.
      * by intros [c' [_ [_ ->]]].
    + rewrite elem_of_nil. split; [done|].
      intros [c' [H [H' _]]]. congruence.
  - rewrite elem_of_nil. split; [done|]. by intros [c' [H _]].
Qed.

Lemma elem_ends_cat fl r1 r2 s i j :
  j ∈ ends fl (Cat r1 r2) s i
  ↔ ∃ k, k ∈ ends fl r1 s i ∧ j ∈ ends fl r2 s k.
Proof.
  cbn [ends]. rewrite list_elem_of_bind. split.
  - intros [k [H1 H2]]. by exists k.
  - intros [k [H1 H2]]. by exists k.
Qed.

Lemma elem_ends_alt fl r1 r2 s i j :
  j ∈ ends fl (Alt r1 r2) s i
  ↔ j ∈ ends fl r1 s i ∨ j ∈ ends fl r2 s i.
Proof. cbn [ends]. apply elem_of_app. Qed.

Lemma elem_ends_bol fl s i j :
  j ∈ ends fl Bol s i ↔ i = 0%nat ∧ j = 0%nat.
Proof.
  cbn [ends]. destruct (Nat.eqb_spec i 0) as [->|H].
  - rewrite list_elem_of_singleton. split; [by intros -> | by intros [_ ->]].
  - rewrite elem_of_nil. split; [done | by intros [? _]].
Qed.

Lemma elem_ends_eol fl s i j :
  j ∈ ends fl Eol s i
  ↔ j = i ∧ (i = length s ∨ (S i = length s ∧ s !! i = Some 10)).
Proof.
  cbn [ends]. destruct (Nat.eqb_spec i (length s)) as [->|H].
  - rewrite list_elem_of_singleton. split; [intros -> | by intros [-> _]].
    split; [done | by left].
  - destruct (Nat.eqb_spec (S i) (length s)) as [H'|H']; cbn [andb].
    + case_bool_decide as Hc.
      * rewrite list_elem_of_singleton. split; [intros -> | by intros [-> _]].
        split; [done | by right].
      * rewrite elem_of_nil. split; [done|].
        intros [_ [Hi | [_ Hi]]]; done.
    + rewrite elem_of_nil. split; [done|].
      intros [_ [Hi | [Hi _]]]; done.
Qed.

Lemma search_from_found fl r s n i :
  found (search_from fl r s n i) = true
  ↔ ∃ p j, (i ≤ p < i + n)%nat ∧ j ∈ ends fl r s p.
Proof.
  revert i. induction n as [|n IH]; intros i; simpl.
  - split; [done|]. intros [p [j [H _]]]. lia.
  - destruct (ends fl r s i) as [|j l] eqn:E.
    + rewrite IH. split.
      * intros [p [j [H Hj]]]. exists p, j. split; [lia | done].
      * intros [p [j [H Hj]]]. exists p, j. split; [|done].
        destruct (decide (p = i)) as [->|]; [|lia].
        rewrite E in Hj. by apply elem_of_nil in Hj.
    + simpl. split; [intros _ | done].
      exists i, j. split; [lia|]. rewrite E. apply list_elem_of_here.
Qed.

(** [search] finds a match exactly when some start position of the text,
    its end included, has one. *)
Lemma re_search_found fl r s :
  found (re_search fl r s) = true
  ↔ ∃ p j, (p ≤ length s)%nat ∧ j ∈ ends fl r s p.
Proof.
  unfold re_search. rewrite search_from_found. split.
  - intros [p [j [H Hj]]]. exists p, j. split; [lia | done].
  - intros [p [j [H Hj]]]. exists p, j. split; [lia | done].
Qed.

(** The matcher finds the matches of the pattern, all of them. *)
Lemma matches_bounds fl s r i j :
  matches fl s r i j → (i ≤ j)%nat ∧ ((i < j)%nat → (j ≤ length s)%nat).
Proof.
  induction 1 as [i|cs i c Hc Hm|r1 r2 i k j _ [IH1 IH1'] _ [IH2 IH2']
                  |r1 r2 i j _ IH|r1 r2 i j _ IH|g r i
                  |g r i k j _ [IH1 IH1'] _ [IH2 IH2']| |
                  |i Hi Hc]; try (split; lia); try done.
  apply lookup_lt_Some in Hc. split; lia.
Qed.

Lemma star_ends_start greedy step fuel i :
  i ∈ star_ends greedy step fuel i.
Proof.
  destruct fuel as [|fuel]; cbn [star_ends].
  - apply list_elem_of_here.
  - destruct greedy.
    + apply elem_of_app. right. apply list_elem_of_here.
    + apply list_elem_of_here.
Qed.

Lemma elem_star_ends_S greedy step fuel i j :
  j ∈ star_ends greedy step (S fuel) i
  ↔ j = i ∨ ∃ k, k ∈ step i ∧ (i < k)%nat
             ∧ j ∈ star_ends greedy step fuel k.
Proof.
  cbn [star_ends].
  assert (Hmore : ∀ l : list nat,
            j ∈ l ≫= star_ends greedy step fuel
            ↔ ∃ k, k ∈ l ∧ j ∈ star_ends greedy step fuel k).
  { intros l. rewrite list_elem_of_bind. split; intros [k [? ?]]; by exists k. }
  assert (Hfilter : ∀ k, k ∈ List.filter (fun j => (i <? j)%nat) (step i)
                        ↔ k ∈ step i ∧ (i < k)%nat).
  { intros k. rewrite !list_elem_of_In, filter_In, Nat.ltb_lt. done. }
  destruct greedy.
  - rewrite elem_of_app, list_elem_of_singleton, Hmore. split.
    + intros [[k [Hk Hj]] | ->]; [right | by left].
      apply Hfilter in Hk as [? ?]. by exists k.
    + intros [->|[k [Hk [Hlt Hj]]]]; [by right | left].
      exists k. split; [by apply Hfilter | done].
  - rewrite elem_of_cons, Hmore. split.
    + intros [->|[k [Hk Hj]]]; [by left | right].
      apply Hfilter in Hk as [? ?]. by exists k.
    + intros [->|[k [Hk [Hlt Hj]]]]; [by left | right].
      exists k. split; [by apply Hfilter | done].
Qed.

Lemma star_ends_more_fuel greedy step fuel fuel' i j :
  (fuel ≤ fuel')%nat →
  j ∈ star_ends greedy step fuel i → j ∈ star_ends greedy step fuel' i.
Proof.
  revert fuel' i. induction fuel as [|fuel IH]; intros fuel' i Hle Hj.
  - cbn [star_ends] in Hj. apply list_elem_of_singleton in Hj as ->.
    apply star_ends_start.
  - destruct fuel' as [|fuel']; [lia|].
    apply elem_star_ends_S in Hj. apply elem_star_ends_S.
    destruct Hj as [->|[k [Hk [Hlt Hj]]]]; [by left | right].
    exists k. split; [done|]. split; [done|]. apply IH; [lia | done].
Qed.

Lemma ends_sound fl s r i j : j ∈ ends fl r s i → matches fl s r i j.
Proof.
  revert i j. induction r as [|cs|r1 IH1 r2 IH2|r1 IH1 r2 IH2|g r IH| |];
    intros i j Hj.
  - cbn [ends] in Hj. apply list_elem_of_singleton in Hj as ->. constructor.
  - apply elem_ends_chr in Hj as [c [Hc [Hm ->]]]. by econstructor.
  - apply elem_ends_cat in Hj as [k [Hk Hj]].
    econstructor; [by apply IH1 | by apply IH2].
  - apply elem_ends_alt in Hj as [Hj|Hj].
    + apply matches_alt_l. by apply IH1.
    + apply matches_alt_r. by apply IH2.
  - cbn [ends] in Hj. revert Hj. generalize (S (length s - i)).
    intros fuel. revert i j.
    induction fuel as [|fuel IHf]; intros i j Hj.
    + cbn [star_ends] in Hj. apply list_elem_of_singleton in Hj as ->.
      constructor.
    + apply elem_star_ends_S in Hj as [->|[k [Hk [Hlt Hj]]]].
      * constructor.
      * eapply matches_star_more; [by apply IH | by apply IHf].
  - apply elem_ends_bol in Hj as [-> ->]. constructor.
  - apply elem_ends_eol in Hj as [-> [->|[Hi Hc]]]; by constructor.
Qed.

Lemma ends_complete fl s r i j : matches fl s r i j → j ∈ ends fl r s i.
Proof.
  induction 1 as [i|cs i c Hc Hm|r1 r2 i k j _ IH1 _ IH2
                  |r1 r2 i j _ IH|r1 r2 i j _ IH|g r i
                  |g r i k j H1 IH1 H2 IH2| | |i Hi Hc].
  - apply list_elem_of_here.
  - apply elem_ends_chr. by exists c.
  - apply elem_ends_cat. by exists k.
  - apply elem_ends_alt. by left.
  - apply elem_ends_alt. by right.
  - cbn [ends]. apply star_ends_start.
  - cbn [ends] in *.
    destruct (matches_bounds _ _ _ _ _ H1) as [Hle Hin].
    destruct (decide (k = i)) as [->|Hne]; [done|].
    apply elem_star_ends_S. right. exists k.
    split; [done|]. split; [lia|].
    eapply star_ends_more_fuel; [|exact IH2]. specialize (Hin ltac:(lia)). lia.
  - by apply elem_ends_bol.
  - apply elem_ends_eol. split; [done | by left].
  - apply elem_ends_eol. split; [done | by right].
Qed.

Lemma re_search_matches fl r s :
  found (re_search fl r s) = true
  ↔ ∃ p j, (p ≤ length s)%nat ∧ matches fl s r p j.
Proof.
  rewrite re_search_found. split.
  - intros [p [j [Hp Hj]]]. exists p, j. split; [done | by apply ends_sound].
  - intros [p [j [Hp Hj]]]. exists p, j.
    split; [done | by apply ends_complete].
Qed.

(** ** OutputAnalyzer: the properties *)

Lemma no_escape_no_match (s : pystr) (i : nat) :
  ESC ∉ s → ends ANSI_FLAGS ANSI_RE s i = [].
Proof.
  intros Hs. unfold ANSI_RE. cbn [ends].
  destruct (s !! i) as [c|] eqn:E; [|done].
  cbn [charset_mem]. destruct (N.eqb_spec c ESC) as [->|Hc]; [|done].
  exfalso. apply Hs. by eapply list_elem_of_lookup_2.
Qed.

(** C3. [has_ansi] is false on every string without the ESC character
    (0x1B), and true on the CSI sequence ESC [ 3 1 m and on the OSC
    sequence ESC ] 0 ; t i t l e BEL. *)
Theorem has_ansi_needs_escape :
  (∀ s : pystr, ESC ∉ s → has_ansi s = false)
  ∧ has_ansi (ESC :: py "[31m") = true
  ∧ has_ansi (ESC :: py "]0;title" ++ [BEL]) = true.
Proof.
  split; [|split; reflexivity].
  intros s Hs. unfold has_ansi.
  destruct (found (re_search ANSI_FLAGS ANSI_RE s)) eqn:E; [|done].
  apply re_search_found in E as [p [j [_ Hj]]].
  rewrite no_escape_no_match in Hj by done. by apply elem_of_nil in Hj.
Qed.

Lemma ends_lit fl c s i :
  s !! i = Some c → S i ∈ ends fl (Chr (CsLit c)) s i.
Proof.
  intros H. apply elem_ends_chr. exists c.
  cbn [charset_mem]. by rewrite N.eqb_refl.
Qed.

Lemma short_flag_spec (x : N) (t : pystr) :
  short_flag x t = true ↔ ∃ i, short_flag_at x t i.
Proof.
  unfold short_flag, short_flag_re. rewrite re_search_found. split.
  - intros [p [j [_ H]]].
    apply elem_ends_cat in H as [k [Hk H]].
    apply elem_ends_cat in H as [k1 [H1 H]].
    apply elem_ends_chr in H1 as [c1 [Hc1 [Hm1 ->]]].
    apply elem_ends_cat in H as [k2 [H2 H]].
    apply elem_ends_chr in H2 as [c2 [Hc2 [Hm2 ->]]].
    cbn [charset_mem] in Hm1, Hm2.
    apply N.eqb_eq in Hm1 as ->. apply N.eqb_eq in Hm2 as ->.
    exists k. split; [done|]. split; [done|]. split.
    + apply elem_ends_alt in Hk as [Hk|Hk].
      * apply elem_ends_bol in Hk as [_ ->]. by left.
      * apply elem_ends_chr in Hk as [c [Hc [Hm ->]]].
        right. by exists p, c.
    + apply elem_ends_alt in H as [H|H].
      * apply elem_ends_chr in H as [c [Hc [Hm _]]].
        right. exists c. split; [done | by left].
      * apply elem_ends_alt in H as [H|H].
        -- apply elem_ends_chr in H as [c [Hc [Hm _]]].
           cbn [charset_mem] in Hm. apply N.eqb_eq in Hm as ->.
           right. exists (ch ","). split; [done | by right].
        -- apply elem_ends_eol in H as [_ [H|[_ H]]].
           ++ left. apply lookup_ge_None. lia.
           ++ right. exists 10. split; [done | by left].
  - intros [i [Hdash [Hx [Hbefore Hafter]]]].
    assert (Hlen : (S i < length t)%nat) by by eapply lookup_lt_Some.
    assert (Hrest : ∃ j, j ∈ ends NO_FLAGS
              (Cat (Chr (CsLit (ch "-")))
                 (Cat (Chr (CsLit x))
                    (Alt (Chr CsSpace) (Alt (Chr (CsLit (ch ","))) Eol))))
              t i).
    { destruct Hafter as [Hend | [c [Hc [Hs | ->]]]].
      - exists (S (S i)).
        apply elem_ends_cat. exists (S i). split.
        { by apply ends_lit. }
        apply elem_ends_cat. exists (S (S i)). split.
        { by apply ends_lit. }
        apply elem_ends_alt; right. apply elem_ends_alt; right.
        apply elem_ends_eol. split; [done|]. left.
        apply lookup_ge_None in Hend. lia.
      - exists (S (S (S i))).
        apply elem_ends_cat. exists (S i). split.
        { by apply ends_lit. }
        apply elem_ends_cat. exists (S (S i)). split.
        { by apply ends_lit. }
        apply elem_ends_alt; left. apply elem_ends_chr. by exists c.
      - exists (S (S (S i))).
        apply elem_ends_cat. exists (S i). split.
        { by apply ends_lit. }
        apply elem_ends_cat. exists (S (S i)). split.
        { by apply ends_lit. }
        apply elem_ends_alt; right. apply elem_ends_alt; left.
        by apply ends_lit. }
    destruct Hrest as [j Hj].
    destruct Hbefore as [-> | [p [c [-> [Hc Hs]]]]].
    + exists 0%nat, j. split; [lia|].
      apply elem_ends_cat. exists 0%nat. split; [|done].
      apply elem_ends_alt; left. by apply elem_ends_bol.
    + exists p, j. split; [lia|].
      apply elem_ends_cat. exists (S p). split; [|done].
      apply elem_ends_alt; right. apply elem_ends_chr. by exists c.
Qed.

(** The entries of the dictionary that [find_flag_mentions] returns. *)
Ltac flag_entry :=
  intros; unfold find_flag_mentions, mentioned;
  repeat match goal with
         | |- context [contains ?k ?t] => generalize (contains k t); intro
         | |- context [short_flag ?x ?t] => generalize (short_flag x t); intro
         end;
  vm_compute; reflexivity.

Lemma flag_mentions_short t :
  find_flag_mentions t !! py "-h" = Some (short_flag (ch "h") t)
  ∧ find_flag_mentions t !! py "--quiet"
    = Some (contains (py "--quiet") t || short_flag (ch "q") t)
  ∧ find_flag_mentions t !! py "--verbose"
    = Some (contains (py "--verbose") t || short_flag (ch "v") t)
  ∧ find_flag_mentions t !! py "--debug"
    = Some (contains (py "--debug") t || short_flag (ch "d") t).
Proof. repeat split; flag_entry. Qed.

(** C6. [find_flag_mentions] finds the short flags -h, -q, -v, -d only
    as words of their own: after the start of the text or a white space,
    and before a white space, a comma or the end of the text.  So -v is
    found in "run -v now" and not in "run -version". *)
Theorem short_flags_at_word_boundaries :
  (∀ x t, short_flag x t = true ↔ ∃ i, short_flag_at x t i)
  ∧ (∀ t,
       find_flag_mentions t !! py "-h" = Some (short_flag (ch "h") t)
       ∧ find_flag_mentions t !! py "--quiet"
         = Some (contains (py "--quiet") t || short_flag (ch "q") t)
       ∧ find_flag_mentions t !! py "--verbose"
         = Some (contains (py "--verbose") t || short_flag (ch "v") t)
       ∧ find_flag_mentions t !! py "--debug"
         = Some (contains (py "--debug") t || short_flag (ch "d") t))
  ∧ short_flag (ch "v") (py "run -v now") = true
  ∧ find_flag_mentions (py "run -v now") !! py "--verbose" = Some true
  ∧ short_flag (ch "v") (py "run -version") = false
  ∧ find_flag_mentions (py "run -version") !! py "--verbose" = Some false.
Proof.
  split; [exact short_flag_spec|].
  split; [exact flag_mentions_short|].
  repeat split; vm_compute; reflexivity.
Qed.

(** C7. [looks_like_help] is true exactly when the lower-cased text
    contains one of "usage:", "\nusage", "synopsis", "options",
    "commands"; it is true for "Usage: foo [OPTIONS]" and false for
    "random text". *)
Theorem looks_like_help_substrings :
  lower_on_ascii →
  (∀ text,
     looks_like_help text = true
     ↔ ∃ k, k ∈ [py "usage:"; NL ++ py "usage"; py "synopsis";
                 py "options"; py "commands"]
            ∧ is_substring k (str_lower text))
  ∧ looks_like_help (py "Usage: foo [OPTIONS]") = true
  ∧ looks_like_help (py "random text") = false.
Proof.
  intros Hlower. split; [|split].
  - intros text. unfold looks_like_help. apply existsb_contains.
  - unfold looks_like_help. rewrite Hlower; [by vm_compute|].
    compute_done.
  - unfold looks_like_help. rewrite Hlower; [by vm_compute|].
    compute_done.
Qed.

(** ** ProcessRunner: the properties *)

(** [run_cmd] in one step: the child gets the overrides on top of
    [os.environ], its launch is recorded, the copy of the environment
    stays behind as a new object, and [os.environ] is as before. *)
Lemma run_cmd_eq (argv : list pystr) (t : float) (o : option pydict)
    (st : state) :
  run_cmd argv t o st =
  let env := child_environment o (os_environ st) in
  (match run_result argv (subprocess_run (children st) argv env t) with
   | Some r => Ok r
   | None => Raised Uncaught
   end,
   mkState (os_environ st) (objects st ++ [env]) (S (children st))
     (trace st ++ [EvSpawn argv env t])).
Proof.
  unfold run_cmd, child_environment, dict_copy, bind at 1 2. cbn [dict_read].
  destruct (dict_truthy o) eqn:Ho.
  - unfold bind at 1, dict_update, bind at 1, dict_read, dict_write.
    cbn [objects os_environ children trace].
    rewrite list_lookup_middle by done.
    cbn [objects os_environ children trace].
    rewrite length_app. cbn [length].
    replace (length (objects st) <? length (objects st) + 1)%nat with true
      by (symmetry; apply Nat.ltb_lt; lia).
    replace (length (objects st)) with (length (objects st) + 0)%nat at 2
      by lia.
    rewrite insert_app_r. cbn [insert list_insert].
    unfold bind, spawn, bind, dict_read, emit.
    cbn [objects os_environ children trace].
    rewrite list_lookup_middle by done.
    cbn [objects os_environ children trace].
    by destruct (subprocess_run _ _ _ _).
  - assert (Hd : default ∅ o ∪ os_environ st = os_environ st).
    { destruct o as [d|]; cbn in *; [|by rewrite (left_id_L ∅ (∪))].
      case_bool_decide as Hd; [|done]. subst d.
      by rewrite (left_id_L ∅ (∪)). }
    rewrite Hd.
    unfold bind, ret, spawn, bind, dict_read, emit.
    cbn [objects os_environ children trace].
    rewrite list_lookup_middle by done.
    cbn [objects os_environ children trace].
    by destruct (subprocess_run _ _ _ _).
Qed.

(** A launch that ends in any of the three ways gives a result. *)
Lemma run_cmd_returns argv t o st :
  subprocess_run (children st) argv
    (child_environment o (os_environ st)) t ≠ OtherError →
  ∃ r st', run_cmd argv t o st = (Ok r, st').
Proof.
  intros H. rewrite run_cmd_eq. cbn zeta.
  destruct (subprocess_run _ _ _ _); cbn [run_result]; by eauto.
Qed.

(** C2. Every result that [run_cmd] returns is of exactly one kind: a
    normal exit (exit code present, not timed out), a timeout (no exit
    code, timed out, with the output captured so far, possibly none), or
    a failure to start (no exit code, not timed out, the standard error
    set to the message of the script).  No result has an exit code and is
    timed out. *)
Theorem run_cmd_three_outcomes argv t o st r st' :
  run_cmd argv t o st = (Ok r, st') →
  let proc :=
    subprocess_run (children st) argv
      (child_environment o (os_environ st)) t in
  ( (normal_exit r ∧ ¬ run_timed_out r ∧ ¬ failed_to_start r
     ∧ ∃ rc out err, proc = Completed rc out err
         ∧ returncode r = Some rc
         ∧ stdout r = _decode out ∧ stderr r = _decode err)
  ∨ (run_timed_out r ∧ ¬ normal_exit r ∧ ¬ failed_to_start r
     ∧ ∃ out err, proc = TimeoutExpired out err
         ∧ stdout r = _decode (bytes_or_empty out)
         ∧ stderr r = _decode (bytes_or_empty err))
  ∨ (failed_to_start r ∧ ¬ normal_exit r ∧ ¬ run_timed_out r
     ∧ proc = FileNotFoundError ∧ stdout r = []) )
  ∧ ¬ (is_Some (returncode r) ∧ timed_out r = true).
Proof.
  rewrite run_cmd_eq. cbn zeta. intros H.
  unfold normal_exit, run_timed_out, failed_to_start.
  destruct (subprocess_run _ _ _ _) as [rc out err| |out err|];
    cbn [run_result] in H; [| | |discriminate]; injection H as <- _;
    cbn [returncode timed_out stdout stderr].
  - split; [left | by intros [_ ?]].
    split; [by split; [eexists|]|].
    split; [by intros [? _]|]. split; [by intros [? _]|].
    by exists rc, out, err.
  - split; [right; right | by intros [[? ?] _]].
    split; [done|]. split; [by intros [[? ?] _]|].
    split; [by intros [_ ?]|]. done.
  - split; [right; left | by intros [[? ?] _]].
    split; [done|]. split; [by intros [[? ?] _]|].
    split; [by intros [_ [? _]]|]. by exists out, err.
Qed.

(** C8. The child of [run_cmd] gets a copy of the current environment of
    the auditor with the overrides on top: an overridden key has the
    value of the override, every other key has its ambient value, no key
    is lost; and [os.environ] and the objects that existed are as they
    were. *)
Theorem run_cmd_environment (argv : list pystr) (t : float)
    (o : option pydict) (st : state) :
  let overrides : pydict := default ∅ o in
  let st' := snd (run_cmd argv t o st) in
  ∃ env : pydict,
    trace st' = trace st ++ [EvSpawn argv env t]
    ∧ (fst (run_cmd argv t o st)
       = match run_result argv (subprocess_run (children st) argv env t) with
         | Some r => Ok r
         | None => Raised Uncaught
         end)
    ∧ (∀ k v, overrides !! k = Some v → env !! k = Some v)
    ∧ (∀ k, overrides !! k = None → env !! k = os_environ st !! k)
    ∧ (∀ k, is_Some (os_environ st !! k) → is_Some (env !! k))
    ∧ os_environ st' = os_environ st
    ∧ (∀ n d, objects st !! n = Some d → objects st' !! n = Some d).
Proof.
  cbn zeta. rewrite run_cmd_eq. cbn zeta. cbn [fst snd trace os_environ objects].
  exists (child_environment o (os_environ st)).
  unfold child_environment.
  split; [done|]. split; [done|]. split; [|split; [|split; [|split]]].
  - intros k v H. by apply lookup_union_Some_l.
  - intros k H. by apply lookup_union_r.
  - intros k H. apply lookup_union_is_Some. by right.
  - done.
  - intros n d H. by apply lookup_app_l_Some.
Qed.

(** ** ProbeSuite: the run as a whole *)

Lemma when_print_probe {A} (b : bool) header res (k : M A) (st : state) :
  (when b (print_probe header res) ;; k) st =
  k (mkState (os_environ st) (objects st) (children st)
       (trace st ++ if b then probe_printout header res else [])).
Proof.
  destruct st as [e o c tr], b; cbn.
  - unfold bind, print, emit. cbn. by rewrite <- !app_assoc.
  - unfold bind, ret. by rewrite app_nil_r.
Qed.

Lemma run_cmd_bind {A} argv (t : float) o (k : RunResult -> M A) st :
  (r <- run_cmd argv t o ;; k r) st =
  let env := child_environment o (os_environ st) in
  let st' := mkState (os_environ st) (objects st ++ [env]) (S (children st))
               (trace st ++ [EvSpawn argv env t]) in
  match run_result argv (subprocess_run (children st) argv env t) with
  | Some r => k r st'
  | None => (Raised Uncaught, st')
  end.
Proof.
  unfold bind at 1. rewrite run_cmd_eq. cbn zeta.
  by destruct (run_result _ _).
Qed.

(** [main_probes] returns the findings of the suite, or raises what a
    launch raised; [os.environ] is as before. *)
Lemma main_probes_eq (args : Args) (cmd : list pystr) (st : state) :
  ∃ st',
    main_probes args cmd st =
    (match suite_findings args cmd st with
     | Some findings => Ok findings
     | None => Raised Uncaught
     end, st')
    ∧ os_environ st' = os_environ st.
Proof.
  unfold main_probes, suite_findings, probe_outcome.
  cbn [probe_suffix probe_overrides Nat.add].
  rewrite run_cmd_bind. cbn zeta.
  destruct (run_result (cmd ++ [py "--help"]) _) as [help_res|];
    cbn [mbind option_bind]; [|by eexists].
  rewrite when_print_probe. rewrite run_cmd_bind. cbn zeta.
  cbn [os_environ objects children trace].
  destruct (run_result (cmd ++ [py "-h"]) _) as [h_res|];
    cbn [mbind option_bind]; [|by eexists].
  rewrite run_cmd_bind. cbn zeta. cbn [os_environ objects children trace].
  destruct (run_result (cmd ++ [bad_flag]) _) as [bad_res|];
    cbn [mbind option_bind]; [|by eexists].
  rewrite when_print_probe. rewrite run_cmd_bind. cbn zeta.
  cbn [os_environ objects children trace].
  destruct (run_result (cmd ++ [py "--help"]) _) as [no_color_res|];
    cbn [mbind option_bind]; [|by eexists].
  rewrite run_cmd_bind. cbn zeta. cbn [os_environ objects children trace].
  destruct (run_result (cmd ++ [py "--help"]) _) as [dumb_term_res|];
    cbn [mbind option_bind]; [|by eexists].
  unfold ret. rewrite !app_nil_l, <- !app_assoc. by eexists.
Qed.

(** ** Aggregator and main *)

Lemma count_level_from lvl (findings : list Finding) (acc : Z) :
  fold_left
    (fun acc f => if bool_decide (level f = lvl) then (acc + 1)%Z else acc)
    findings acc
  = (acc + Z.of_nat (number_of lvl findings))%Z.
Proof.
  unfold number_of. revert acc.
  induction findings as [|f fs IH]; intros acc; cbn [fold_left List.filter].
  - cbn. lia.
  - rewrite IH. destruct (bool_decide (level f = lvl)); cbn [length]; lia.
Qed.

Lemma count_level_number lvl findings :
  count_level lvl findings = Z.of_nat (number_of lvl findings).
Proof. unfold count_level. by rewrite count_level_from. Qed.

Lemma number_of_pos lvl findings :
  (0 < number_of lvl findings)%nat ↔ ∃ f, f ∈ findings ∧ level f = lvl.
Proof.
  unfold number_of. induction findings as [|f fs IH]; cbn [List.filter].
  - cbn. split; [lia|]. intros [f [H _]]. by apply elem_of_nil in H.
  - case_bool_decide as Hf; cbn [length].
    + split; [intros _ | lia]. exists f. split; [apply list_elem_of_here | done].
    + rewrite IH. split.
      * intros [g [Hg Hl]]. exists g. split; [by apply list_elem_of_further | done].
      * intros [g [Hg Hl]]. apply elem_of_cons in Hg as [->|Hg]; [done|].
        by exists g.
Qed.

Lemma exit_status_number findings strict_mode :
  exit_status findings strict_mode =
  if bool_decide (0 < number_of FAIL findings)%nat then 1%Z
  else if strict_mode && bool_decide (0 < number_of WARN findings)%nat
       then 1%Z else 0%Z.
Proof.
  unfold exit_status. rewrite !count_level_number.
  repeat case_bool_decide;
    repeat match goal with
           | |- context [(0 <? ?x)%Z] => destruct (Z.ltb_spec 0 x)
           end; try done; lia.
Qed.

(** One FAIL finding is enough for the exit status 1. *)
Lemma exit_status_fail findings strict_mode f :
  f ∈ findings → level f = FAIL → exit_status findings strict_mode = 1%Z.
Proof.
  intros Hin Hl. rewrite exit_status_number.
  rewrite bool_decide_eq_true_2; [done|]. apply number_of_pos. by exists f.
Qed.

Lemma summarize_eq findings strict_mode (st : state) :
  summarize findings strict_mode st =
  (Ok (exit_status findings strict_mode),
   mkState (os_environ st) (objects st) (children st)
     (trace st ++
      [EvWrite sys_stdout (format_findings findings ++ NL);
       EvWrite sys_stdout
         ((py "Summary: " ++ str_of_int (count_level FAIL findings)
           ++ py " FAIL, " ++ str_of_int (count_level WARN findings)
           ++ py " WARN") ++ NL)])).
Proof.
  unfold summarize, bind, print, emit, ret. cbn [os_environ objects children trace].
  by rewrite <- app_assoc.
Qed.

(** Past the pre-flight checks, [main] is the suite and then the
    summary. *)
Lemma main_located args (st : state) exe rest :
  target_command (cmd args) = exe :: rest →
  not_located exe = false →
  main args st =
  (findings <- main_probes args (exe :: rest) ;;
   summarize findings (strict args)) st.
Proof.
  intros Hcmd Hexe. unfold main. rewrite Hcmd, Hexe.
  destruct (cmd args); [discriminate | done].
Qed.

Lemma main_after_probes args (st : state) exe rest findings st' :
  target_command (cmd args) = exe :: rest →
  not_located exe = false →
  main_probes args (exe :: rest) st = (Ok findings, st') →
  fst (main args st) = Ok (exit_status findings (strict args))
  ∧ EvWrite sys_stdout (format_findings findings ++ NL)
    ∈ trace (snd (main args st)).
Proof.
  intros Hcmd Hexe Hrun. rewrite (main_located _ _ _ _ Hcmd Hexe).
  unfold bind. rewrite Hrun, summarize_eq. cbn [fst snd trace].
  split; [done|]. apply elem_of_app. right. apply list_elem_of_here.
Qed.

(** C1. The exit status of the auditor is 1 when the findings have a
    FAIL, else 1 when strict mode is on and they have a WARN, else 0.
    With no target command the run ends with status 2, and with a target
    that cannot be located with status 127; in both cases one message
    goes to the standard error and no child is spawned. *)
Theorem main_exit_code :
  (∀ findings strict_mode,
     exit_status findings strict_mode =
     if bool_decide (0 < number_of FAIL findings)%nat then 1%Z
     else if strict_mode && bool_decide (0 < number_of WARN findings)%nat
          then 1%Z else 0%Z)
  ∧ (∀ args (st : state) exe rest,
       target_command (cmd args) = exe :: rest →
       not_located exe = false →
       ∀ findings st',
         main_probes args (exe :: rest) st = (Ok findings, st') →
         fst (main args st) = Ok (exit_status findings (strict args)))
  ∧ (∀ args (st : state),
       target_command (cmd args) = [] →
       ∃ message,
         (message = USAGE_ERROR
          ∨ message = py "Error: no command provided after --.")
         ∧ main args st =
           (Ok 2%Z,
            mkState (os_environ st) (objects st) (children st)
              (trace st ++ [EvWrite sys_stderr (message ++ NL)])))
  ∧ (∀ args (st : state) exe rest,
       target_command (cmd args) = exe :: rest →
       not_located exe = true →
       main args st =
       (Ok 127%Z,
        mkState (os_environ st) (objects st) (children st)
          (trace st ++
           [EvWrite sys_stderr
              ((py "Error: command not found: " ++ exe) ++ NL)]))).
Proof.
  split; [exact exit_status_number|]. split; [|split].
  - intros args st exe rest Hcmd Hexe findings st' Hrun.
    by destruct (main_after_probes _ _ _ _ _ _ Hcmd Hexe Hrun).
  - intros args st Hcmd. unfold main.
    destruct (cmd args) as [|first others] eqn:E.
    + exists USAGE_ERROR. split; [by left | done].
    + rewrite Hcmd. eexists. split; [by right | done].
  - intros args st exe rest Hcmd Hexe. unfold main.
    rewrite Hcmd, Hexe. by destruct (cmd args).
Qed.

(** ** ProbeSuite: the properties *)

Lemma run_result_caught argv proc :
  proc ≠ OtherError → ∃ r, run_result argv proc = Some r.
Proof. destruct proc; cbn; by eauto. Qed.

(** When no launch raises an uncaught exception the suite runs to its
    end, and its findings are those of the seven blocks in their order. *)
Lemma suite_runs args cmd (st : state) :
  launches_caught args cmd st →
  ∃ help_res h_res bad_res no_color_res dumb_term_res st',
    run_result (cmd ++ [py "--help"]) (probe_outcome args cmd st 0)
      = Some help_res
    ∧ run_result (cmd ++ [py "-h"]) (probe_outcome args cmd st 1)
      = Some h_res
    ∧ run_result (cmd ++ [bad_flag]) (probe_outcome args cmd st 2)
      = Some bad_res
    ∧ run_result (cmd ++ [py "--help"]) (probe_outcome args cmd st 3)
      = Some no_color_res
    ∧ run_result (cmd ++ [py "--help"]) (probe_outcome args cmd st 4)
      = Some dumb_term_res
    ∧ main_probes args cmd st =
      (Ok (help_findings help_res ++ short_help_findings h_res
           ++ invalid_flag_findings bad_res ++ convention_findings help_res
           ++ ansi_findings help_res ++ no_color_findings no_color_res
           ++ dumb_term_findings dumb_term_res), st').
Proof.
  intros Hcaught.
  destruct (run_result_caught (cmd ++ [py "--help"]) _ (Hcaught 0%nat ltac:(lia)))
    as [help_res H0].
  destruct (run_result_caught (cmd ++ [py "-h"]) _ (Hcaught 1%nat ltac:(lia)))
    as [h_res H1].
  destruct (run_result_caught (cmd ++ [bad_flag]) _ (Hcaught 2%nat ltac:(lia)))
    as [bad_res H2].
  destruct (run_result_caught (cmd ++ [py "--help"]) _ (Hcaught 3%nat ltac:(lia)))
    as [no_color_res H3].
  destruct (run_result_caught (cmd ++ [py "--help"]) _ (Hcaught 4%nat ltac:(lia)))
    as [dumb_term_res H4].
  destruct (main_probes_eq args cmd st) as [st' [Hrun _]].
  exists help_res, h_res, bad_res, no_color_res, dumb_term_res, st'.
  repeat (split; [done|]).
  rewrite Hrun. unfold suite_findings.
  rewrite H0, H1, H2, H3, H4. done.
Qed.

Lemma levels_distinct : PASS ≠ FAIL ∧ WARN ≠ FAIL ∧ PASS ≠ WARN.
Proof. by vm_compute. Qed.

Lemma bad_exit_finding_level rc :
  level (bad_exit_finding rc) = FAIL ↔ rc = 0%Z.
Proof.
  unfold bad_exit_finding. case_bool_decide as Hrc; cbn [level finding].
  - done.
  - split; [|done]. intros Hl. by destruct (proj1 levels_distinct).
Qed.

Lemma bad_other_levels bad_res f :
  f ∈ [bad_stderr_finding bad_res; bad_hint_finding bad_res]
      ++ bad_noise_findings bad_res →
  level f ≠ FAIL.
Proof.
  destruct levels_distinct as [Hp [Hw _]].
  unfold bad_stderr_finding, bad_hint_finding, bad_noise_findings.
  intros H. apply elem_of_app in H as [H|H].
  - apply elem_of_cons in H as [->|H].
    + by destruct (truthy _).
    + apply list_elem_of_singleton in H as ->. by destruct (contains _ _).
  - destruct (existsb _ _).
    + by apply list_elem_of_singleton in H as ->.
    + by apply elem_of_nil in H.
Qed.

(** C4. When the invalid-flag probe neither timed out nor failed to
    start, its findings have a FAIL exactly when the exit code is 0, and
    otherwise the PASS that reports the exit code.  So for a target that
    exits with 0 whatever its arguments, the finding "Unknown flag
    returned exit code 0" is among the findings and the exit status of
    the auditor is 1. *)
Theorem invalid_flag_exit_code :
  (∀ bad_res rc,
     timed_out bad_res = false →
     returncode bad_res = Some rc →
     ((∃ f, f ∈ invalid_flag_findings bad_res ∧ level f = FAIL) ↔ rc = 0%Z)
     ∧ (rc = 0%Z → unknown_flag_fail ∈ invalid_flag_findings bad_res)
     ∧ (rc ≠ 0%Z → unknown_flag_pass rc ∈ invalid_flag_findings bad_res))
  ∧ (∀ args (st : state) exe rest,
       target_command (cmd args) = exe :: rest →
       not_located exe = false →
       (∀ n argv env t, ∃ out err,
          subprocess_run n argv env t = Completed 0 out err) →
       ∃ findings st',
         main_probes args (exe :: rest) st = (Ok findings, st')
         ∧ unknown_flag_fail ∈ findings
         ∧ fst (main args st) = Ok 1%Z
         ∧ EvWrite sys_stdout (format_findings findings ++ NL)
           ∈ trace (snd (main args st))).
Proof.
  split.
  - intros bad_res rc Ht Hrc. unfold invalid_flag_findings.
    rewrite Ht, Hrc. split; [|split].
    + split.
      * intros [f [Hf Hl]]. cbn [app] in Hf.
        apply elem_of_cons in Hf as [->|Hf].
        -- by apply bad_exit_finding_level.
        -- by apply (bad_other_levels bad_res) in Hf.
      * intros ->. exists (bad_exit_finding 0). split; [|done].
        apply list_elem_of_here.
    + intros ->. apply list_elem_of_here.
    + intros Hne. unfold unknown_flag_pass.
      replace (finding _ _) with (bad_exit_finding rc);
        [apply list_elem_of_here|].
      unfold bad_exit_finding. by rewrite bool_decide_eq_false_2.
  - intros args st exe rest Hcmd Hexe Hzero.
    assert (Hcaught : launches_caught args (exe :: rest) st).
    { intros k _. unfold probe_outcome.
      destruct (Hzero (k + children st)%nat ((exe :: rest) ++ [probe_suffix k])
                  (child_environment (probe_overrides k) (os_environ st))
                  (timeout args)) as [out [err Hk]].
      by rewrite Hk. }
    destruct (suite_runs _ _ _ Hcaught)
      as (help_res & h_res & bad_res & no_color_res & dumb_term_res & st'
          & H0 & H1 & H2 & H3 & H4 & Hrun).
    eexists _, st'. split; [exact Hrun|].
    assert (Hin : unknown_flag_fail ∈
              help_findings help_res ++ short_help_findings h_res
              ++ invalid_flag_findings bad_res ++ convention_findings help_res
              ++ ansi_findings help_res ++ no_color_findings no_color_res
              ++ dumb_term_findings dumb_term_res).
    { do 2 (apply elem_of_app; right). apply elem_of_app; left.
      unfold probe_outcome in H2.
      destruct (Hzero (2 + children st)%nat ((exe :: rest) ++ [probe_suffix 2])
                  (child_environment (probe_overrides 2) (os_environ st))
                  (timeout args)) as [out [err Hk]].
      rewrite Hk in H2. cbn [run_result] in H2. injection H2 as <-.
      apply list_elem_of_here. }
    split; [exact Hin|].
    destruct (main_after_probes _ _ _ _ _ _ Hcmd Hexe Hrun) as [-> Hw].
    split; [|exact Hw]. f_equal. by eapply exit_status_fail.
Qed.

Lemma truthy_has_output (s : pystr) :
  truthy (strip s) = true ↔ has_output s.
Proof. apply truthy_strip. Qed.

(** The three cases of the channel check of the [--help] probe. *)
Lemma help_channel_cases help_res :
  (has_output (stdout help_res) ∧ ¬ has_output (stderr help_res) →
   help_channel_finding help_res = help_stdout_pass)
  ∧ (has_output (stderr help_res) ∧ ¬ has_output (stdout help_res) →
     help_channel_finding help_res = help_stderr_warn)
  ∧ (help_channel_finding help_res = help_both_warn
     ↔ (has_output (stdout help_res) ↔ has_output (stderr help_res))).
Proof.
  unfold help_channel_finding. rewrite <- !truthy_has_output.
  destruct (truthy (strip (stdout help_res)));
    destruct (truthy (strip (stderr help_res))); cbn [andb negb].
  - split; [by intros [_ ?]|]. split; [by intros [_ ?]|]. done.
  - split; [done|]. split; [by intros [? _]|].
    split; [by vm_compute | intros [H _]; by specialize (H eq_refl)].
  - split; [by intros [? _]|]. split; [done|].
    split; [by vm_compute | intros [_ H]; by specialize (H eq_refl)].
  - split; [by intros [? _]|]. split; [by intros [? _]|]. done.
Qed.

(** C5, where the code leaves the claim: a [--help] that ran and wrote
    nothing gets the finding "Help printed to both stdout and stderr",
    though neither channel has output. *)
Theorem help_both_warn_without_output args cmd (st : state) rc :
  launches_caught args cmd st →
  probe_outcome args cmd st 0 = Completed rc [] [] →
  ∃ findings st' help_res,
    main_probes args cmd st = (Ok findings, st')
    ∧ run_result (cmd ++ [py "--help"]) (probe_outcome args cmd st 0)
      = Some help_res
    ∧ ¬ has_output (stdout help_res) ∧ ¬ has_output (stderr help_res)
    ∧ help_channel_finding help_res = help_both_warn
    ∧ help_both_warn ∈ findings.
Proof.
  intros Hcaught Hsilent.
  destruct (suite_runs _ _ _ Hcaught)
    as (help_res & h_res & bad_res & no_color_res & dumb_term_res & st'
        & H0 & H1 & H2 & H3 & H4 & Hrun).
  eexists _, st', help_res. split; [exact Hrun|]. split; [exact H0|].
  rewrite Hsilent in H0. cbn [run_result] in H0. injection H0 as <-.
  cbn [stdout stderr]. unfold has_output.
  split; [by inversion 1|]. split; [by inversion 1|]. split; [done|].
  apply elem_of_app; left. unfold help_findings. cbn [timed_out returncode].
  do 2 apply list_elem_of_further. apply list_elem_of_here.
Qed.

Lemma no_color_findings_eq r :
  no_color_findings r =
  [if has_ansi (stdout r) || has_ansi (stderr r)
   then no_color_warn else no_color_pass].
Proof. unfold no_color_findings. by destruct (_ || _). Qed.

Lemma dumb_term_findings_eq r :
  dumb_term_findings r =
  [if has_ansi (stdout r) || has_ansi (stderr r)
   then dumb_term_warn else dumb_term_pass].
Proof. unfold dumb_term_findings. by destruct (_ || _). Qed.

(** C9, amended. The finding of the NO_COLOR probe and that of the
    TERM=dumb probe depend only on whether the captured output has an
    ANSI sequence: WARN when it has, PASS when it has not, and never a
    report that the probe could not run.  So the PASS finding is there
    when the probe failed to start, and when it timed out with no ANSI
    sequence in the output captured so far. *)
Theorem env_probes_follow_ansi :
  (∀ r, no_color_findings r =
        [if has_ansi (stdout r) || has_ansi (stderr r)
         then no_color_warn else no_color_pass])
  ∧ (∀ r, dumb_term_findings r =
          [if has_ansi (stdout r) || has_ansi (stderr r)
           then dumb_term_warn else dumb_term_pass])
  ∧ (∀ args cmd (st : state),
       launches_caught args cmd st →
       ∃ findings st' no_color_res dumb_term_res,
         main_probes args cmd st = (Ok findings, st')
         ∧ run_result (cmd ++ [py "--help"]) (probe_outcome args cmd st 3)
           = Some no_color_res
         ∧ run_result (cmd ++ [py "--help"]) (probe_outcome args cmd st 4)
           = Some dumb_term_res
         ∧ (if has_ansi (stdout no_color_res) || has_ansi (stderr no_color_res)
            then no_color_warn else no_color_pass) ∈ findings
         ∧ (if has_ansi (stdout dumb_term_res)
               || has_ansi (stderr dumb_term_res)
            then dumb_term_warn else dumb_term_pass) ∈ findings
         ∧ (probe_outcome args cmd st 3 = FileNotFoundError →
            no_color_pass ∈ findings)
         ∧ (probe_outcome args cmd st 4 = FileNotFoundError →
            dumb_term_pass ∈ findings)
         ∧ (∀ out err,
              probe_outcome args cmd st 3 = TimeoutExpired out err →
              has_ansi (_decode (bytes_or_empty out))
                || has_ansi (_decode (bytes_or_empty err)) = false →
              no_color_pass ∈ findings)
         ∧ (∀ out err,
              probe_outcome args cmd st 4 = TimeoutExpired out err →
              has_ansi (_decode (bytes_or_empty out))
                || has_ansi (_decode (bytes_or_empty err)) = false →
              dumb_term_pass ∈ findings)).
Proof.
  split; [exact no_color_findings_eq|]. split; [exact dumb_term_findings_eq|].
  intros args cmd st Hcaught.
  destruct (suite_runs _ _ _ Hcaught)
    as (help_res & h_res & bad_res & no_color_res & dumb_term_res & st'
        & H0 & H1 & H2 & H3 & H4 & Hrun).
  eexists _, st', no_color_res, dumb_term_res.
  split; [exact Hrun|]. split; [exact H3|]. split; [exact H4|].
  assert (Hnc : (if has_ansi (stdout no_color_res)
                    || has_ansi (stderr no_color_res)
                 then no_color_warn else no_color_pass)
                ∈ help_findings help_res ++ short_help_findings h_res
                  ++ invalid_flag_findings bad_res
                  ++ convention_findings help_res ++ ansi_findings help_res
                  ++ no_color_findings no_color_res
                  ++ dumb_term_findings dumb_term_res).
  { do 5 (apply elem_of_app; right). apply elem_of_app; left.
    rewrite no_color_findings_eq. apply list_elem_of_here. }
  assert (Hdt : (if has_ansi (stdout dumb_term_res)
                    || has_ansi (stderr dumb_term_res)
                 then dumb_term_warn else dumb_term_pass)
                ∈ help_findings help_res ++ short_help_findings h_res
                  ++ invalid_flag_findings bad_res
                  ++ convention_findings help_res ++ ansi_findings help_res
                  ++ no_color_findings no_color_res
                  ++ dumb_term_findings dumb_term_res).
  { do 6 (apply elem_of_app; right).
    rewrite dumb_term_findings_eq. apply list_elem_of_here. }
  split; [exact Hnc|]. split; [exact Hdt|].
  split; [|split; [|split]].
  - intros Hp. rewrite Hp in H3. cbn [run_result] in H3.
    injection H3 as <-. exact Hnc.
  - intros Hp. rewrite Hp in H4. cbn [run_result] in H4.
    injection H4 as <-. exact Hdt.
  - intros out err Hp Hansi. rewrite Hp in H3. cbn [run_result] in H3.
    injection H3 as <-. cbn [stdout stderr] in Hnc. by rewrite Hansi in Hnc.
  - intros out err Hp Hansi. rewrite Hp in H4. cbn [run_result] in H4.
    injection H4 as <-. cbn [stdout stderr] in Hdt. by rewrite Hansi in Hdt.
Qed.

(** *** Helper lemmas for the text checks *)

Lemma contains_char_elem (c : N) (s : pystr) :
  contains_char c s = true ↔ c ∈ s.
Proof.
  unfold contains_char. rewrite existsb_exists, list_elem_of_In. split.
  - intros [x [Hx Heq]]. apply N.eqb_eq in Heq. by subst.
  - intros H. exists c. split; [done | apply N.eqb_refl].
Qed.

Lemma no_escape_no_ansi (s : pystr) : ESC ∉ s → has_ansi s = false.
Proof.
  intros Hs. unfold has_ansi.
  destruct (found (re_search ANSI_FLAGS ANSI_RE s)) eqn:E; [|done].
  apply re_search_found in E as [p [j [_ Hj]]].
  rewrite no_escape_no_match in Hj by done. by apply elem_of_nil in Hj.
Qed.

Ltac flag_value :=
  unfold find_flag_mentions, mentioned;
  repeat match goal with
         | |- context [contains ?k ?t] => generalize (contains k t); intro
         | |- context [short_flag ?x ?t] => generalize (short_flag x t); intro
         end;
  vm_compute; reflexivity.

Lemma find_flag_mentions_long (t k : pystr) :
  k ∈ long_tokens → find_flag_mentions t !! k = Some (contains k t).
Proof.
  unfold long_tokens. intros Hk.
  repeat (apply elem_of_cons in Hk as [->|Hk]; [flag_value|]).
  by apply elem_of_nil in Hk.
Qed.

Lemma mentioned_long (t k : pystr) :
  k ∈ long_tokens → mentioned (find_flag_mentions t) k = contains k t.
Proof.
  intros Hk. unfold mentioned. by rewrite (find_flag_mentions_long t k Hk).
Qed.

Lemma told_by_one (t k : pystr) (pass warn : Finding) :
  k ∈ long_tokens →
  told_by [k] t pass warn
    (if mentioned (find_flag_mentions t) k then pass else warn).
Proof.
  intros Hk. rewrite (mentioned_long t k Hk).
  destruct (contains k t) eqn:E.
  - left. split; [done|]. exists k.
    split; [apply list_elem_of_here | by apply contains_spec].
  - right. split; [done|]. intros tok Htok Hs.
    apply list_elem_of_singleton in Htok as ->.
    apply contains_spec in Hs. congruence.
Qed.

Lemma told_by_two (t k1 k2 : pystr) (pass warn : Finding) :
  k1 ∈ long_tokens → k2 ∈ long_tokens →
  told_by [k1; k2] t pass warn
    (if mentioned (find_flag_mentions t) k1
        || mentioned (find_flag_mentions t) k2
     then pass else warn).
Proof.
  intros Hk1 Hk2.
  rewrite (mentioned_long t k1 Hk1), (mentioned_long t k2 Hk2).
  destruct (contains k1 t) eqn:E1; [|destruct (contains k2 t) eqn:E2];
    cbn [orb].
  - left. split; [done|]. exists k1.
    split; [apply list_elem_of_here | by apply contains_spec].
  - left. split; [done|]. exists k2.
    split; [apply list_elem_of_further, list_elem_of_here
           | by apply contains_spec].
  - right. split; [done|]. intros tok Htok Hs. apply contains_spec in Hs.
    apply elem_of_cons in Htok as [-> | Htok]; [congruence|].
    apply list_elem_of_singleton in Htok as ->. congruence.
Qed.

Lemma carriage_block (out err : pystr) (block : list Finding) :
  block = (if has_carriage_returns out || has_carriage_returns err
           then [carriage_warn] else []) →
  ((CR ∈ out ∨ CR ∈ err) ∧ block = [carriage_warn])
  ∨ ((CR ∉ out) ∧ (CR ∉ err) ∧ block = []).
Proof.
  intros ->. unfold has_carriage_returns.
  destruct (contains_char CR out) eqn:Eo.
  { left. split; [|done]. left. by apply contains_char_elem. }
  destruct (contains_char CR err) eqn:Ee; cbn [orb].
  { left. split; [|done]. right. by apply contains_char_elem. }
  right. split; [|split; [|done]]; intros H%contains_char_elem; congruence.
Qed.

(** C10. The convention checks and the checks for ANSI sequences and
    carriage returns are made on the text captured by the [--help] probe
    whatever that probe did: after a normal exit, after a timeout (on the
    partial output) and after a failure to start.  The findings of the
    suite hold, in this order and before the two findings of the
    environment probes, the five convention findings, the ANSI finding and
    the carriage return finding if any.  Each convention finding is the
    PASS finding when its token (for the colour controls: one of its two
    tokens) occurs in the captured standard output, a line feed and the
    captured standard error, and the WARN finding otherwise; the ANSI
    finding is the WARN finding when [has_ansi] holds of one of the two
    streams and the PASS finding otherwise, so PASS when neither has an
    ESC; the carriage return WARN is there exactly when one of the two
    streams has a carriage return.  When the probe failed to start, the
    text is "\nCommand not found.", the five convention checks give their
    WARN findings, the ANSI check its PASS finding, and there is no
    carriage return finding. *)
Theorem conventions_checked_always args cmd (st : state) :
  launches_caught args cmd st →
  ∃ findings st' help_res before after text
    version json plain colour no_input ansi carriage,
    main_probes args cmd st = (Ok findings, st')
    ∧ run_result (cmd ++ [py "--help"]) (probe_outcome args cmd st 0)
      = Some help_res
    ∧ findings =
      before ++ [version; json; plain; colour; no_input]
      ++ ansi :: carriage ++ after
    ∧ length after = 2%nat
    ∧ convention_findings help_res = [version; json; plain; colour; no_input]
    ∧ ansi_findings help_res = ansi :: carriage
    ∧ text = stdout help_res ++ NL ++ stderr help_res
    ∧ help_text_of help_res = text
    ∧ told_by [py "--version"] text version_pass version_warn version
    ∧ told_by [py "--json"] text json_pass json_warn json
    ∧ told_by [py "--plain"] text plain_pass plain_warn plain
    ∧ told_by [py "--no-color"; py "NO_COLOR"] text colour_pass colour_warn
        colour
    ∧ told_by [py "--no-input"] text no_input_pass no_input_warn no_input
    ∧ ansi = (if has_ansi (stdout help_res) || has_ansi (stderr help_res)
              then ansi_warn else ansi_pass)
    ∧ (ESC ∉ stdout help_res → ESC ∉ stderr help_res → ansi = ansi_pass)
    ∧ (((CR ∈ stdout help_res ∨ CR ∈ stderr help_res)
        ∧ carriage = [carriage_warn])
       ∨ ((CR ∉ stdout help_res) ∧ (CR ∉ stderr help_res)
          ∧ carriage = []))
    ∧ (∀ rc out err,
         probe_outcome args cmd st 0 = Completed rc out err →
         stdout help_res = _decode out ∧ stderr help_res = _decode err
         ∧ text = _decode out ++ NL ++ _decode err)
    ∧ (∀ out err,
         probe_outcome args cmd st 0 = TimeoutExpired out err →
         stdout help_res = _decode (bytes_or_empty out)
         ∧ stderr help_res = _decode (bytes_or_empty err)
         ∧ text =
           _decode (bytes_or_empty out) ++ NL ++ _decode (bytes_or_empty err))
    ∧ (probe_outcome args cmd st 0 = FileNotFoundError →
       stdout help_res = [] ∧ stderr help_res = py "Command not found."
       ∧ text = NL ++ py "Command not found."
       ∧ [version; json; plain; colour; no_input] = conventions_all_warn
       ∧ Forall (fun f => level f = WARN)
           [version; json; plain; colour; no_input]
       ∧ ansi = ansi_pass ∧ carriage = []).
Proof.
  intros Hcaught.
  destruct (suite_runs _ _ _ Hcaught)
    as (help_res & h_res & bad_res & no_color_res & dumb_term_res & st'
        & H0 & H1 & H2 & H3 & H4 & Hrun).
  pose (flags := find_flag_mentions (help_text_of help_res)).
  eexists _, st', help_res,
    (help_findings help_res ++ short_help_findings h_res
     ++ invalid_flag_findings bad_res),
    (no_color_findings no_color_res ++ dumb_term_findings dumb_term_res),
    (stdout help_res ++ NL ++ stderr help_res),
    (if mentioned flags (py "--version")
     then version_pass else version_warn),
    (if mentioned flags (py "--json") then json_pass else json_warn),
    (if mentioned flags (py "--plain") then plain_pass else plain_warn),
    (if mentioned flags (py "--no-color") || mentioned flags (py "NO_COLOR")
     then colour_pass else colour_warn),
    (if mentioned flags (py "--no-input")
     then no_input_pass else no_input_warn),
    (if has_ansi (stdout help_res) || has_ansi (stderr help_res)
     then ansi_warn else ansi_pass),
    (if has_carriage_returns (stdout help_res)
        || has_carriage_returns (stderr help_res)
     then [carriage_warn] else []).
  split; [exact Hrun|]. split; [exact H0|].
  split.
  { change ([?a; ?b; ?c; ?d; ?e] ++ ?x :: ?l ++ ?r)
      with ([a; b; c; d; e] ++ ([x] ++ l) ++ r).
    by rewrite <- !app_assoc. }
  split.
  { rewrite length_app, no_color_findings_eq, dumb_term_findings_eq. done. }
  split; [reflexivity|]. split; [reflexivity|].
  split; [reflexivity|]. split; [reflexivity|].
  split; [apply told_by_one; compute_done|].
  split; [apply told_by_one; compute_done|].
  split; [apply told_by_one; compute_done|].
  split; [apply told_by_two; compute_done|].
  split; [apply told_by_one; compute_done|].
  split; [reflexivity|].
  split.
  { intros Ho He. by rewrite !no_escape_no_ansi. }
  split; [by apply carriage_block|].
  split; [|split].
  - intros rc out err Hp. rewrite Hp in H0. cbn [run_result] in H0.
    by injection H0 as <-.
  - intros out err Hp. rewrite Hp in H0. cbn [run_result] in H0.
    by injection H0 as <-.
  - intros Hp. rewrite Hp in H0. cbn [run_result] in H0. injection H0 as <-.
    subst flags. cbn [stdout stderr].
    split; [done|]. split; [done|]. split; [done|].
    replace (help_text_of _) with (NL ++ py "Command not found.")
      by reflexivity.
    split; [by vm_compute|]. split; [|split; by vm_compute].
    repeat (constructor; [by vm_compute|]). constructor.
Qed.


(** ** The exit status: more lemmas *)

Lemma number_of_app lvl (a b : list Finding) :
  number_of lvl (a ++ b) = (number_of lvl a + number_of lvl b)%nat.
Proof. unfold number_of. by rewrite List.filter_app, length_app. Qed.






(** ** main as a whole: the properties *)






















(** ** The findings of the suite: levels and verdict *)
























End Platform.

(** ** _decode: the properties *)





















(** ** has_ansi: the properties *)






(** ** find_flag_mentions and the convention checks: the properties *)





(** ** format_findings and the exit status: the properties *)












(** ** The theorems on the sample platforms *)

Lemma sample_lower_on_ascii : lower_on_ascii sample_lower.
Proof. intros s _. reflexivity. Defined.

Lemma sample_target : target_command (cmd sample_args) = [py "tool"].
Proof. reflexivity. Defined.


Lemma caught_silent_tool :
  launches_caught silent_tool sample_args [py "tool"] sample_state.
Proof. intros k _. discriminate. Defined.

Lemma caught_hanging_tool :
  launches_caught hanging_tool sample_args [py "tool"] sample_state.
Proof. intros k _. discriminate. Defined.

Lemma caught_missing_tool :
  launches_caught missing_tool sample_args [py "tool"] sample_state.
Proof. intros k _. discriminate. Defined.

Lemma main_exit_code_witness :
  fst (main zero_tool off_path no_such_file sample_lower sample_args
         sample_state) = Ok 127%Z
  ∧ fst (main zero_tool on_path any_file sample_lower
           (mkArgs 10%float false false []) sample_state) = Ok 2%Z
  ∧ ∃ findings,
      fst (main_probes zero_tool sample_lower sample_args [py "tool"]
             sample_state) = Ok findings
      ∧ fst (main zero_tool on_path any_file sample_lower sample_args
               sample_state) = Ok (exit_status findings false).
Proof.
  split; [|split].
  - rewrite (proj2 (proj2 (proj2
        (main_exit_code zero_tool off_path no_such_file sample_lower)))
        sample_args sample_state (py "tool") [] sample_target eq_refl).
    reflexivity.
  - destruct (proj1 (proj2 (proj2
        (main_exit_code zero_tool on_path any_file sample_lower)))
        (mkArgs 10%float false false []) sample_state eq_refl)
      as [message [_ H]].
    rewrite H. reflexivity.
  - destruct (main_probes zero_tool sample_lower sample_args [py "tool"]
                sample_state) as [[findings|e] st'] eqn:E;
      [|vm_compute in E; discriminate].
    exists findings. split; [reflexivity|].
    exact (proj1 (proj2
             (main_exit_code zero_tool on_path any_file sample_lower))
             sample_args sample_state (py "tool") [] sample_target eq_refl
             findings st' E).
Defined.

Lemma run_cmd_three_outcomes_witness :
  ∃ r,
    fst (run_cmd zero_tool [py "tool"; py "--help"] 10%float None
           sample_state) = Ok r
    ∧ ¬ (is_Some (returncode r) ∧ timed_out r = true).
Proof.
  destruct (run_cmd zero_tool [py "tool"; py "--help"] 10%float None
              sample_state) as [[r|e] st'] eqn:E;
    [|vm_compute in E; discriminate].
  exists r. split; [reflexivity|].
  exact (proj2 (run_cmd_three_outcomes zero_tool _ _ _ _ r st' E)).
Defined.

Lemma has_ansi_needs_escape_witness :
  (ESC ∉ py "plain text") ∧ has_ansi (py "plain text") = false.
Proof.
  assert (H : ESC ∉ py "plain text") by compute_done.
  split; [exact H | exact (proj1 has_ansi_needs_escape _ H)].
Defined.

Lemma invalid_flag_exit_code_witness :
  unknown_flag_pass 2
    ∈ invalid_flag_findings (mkRunResult [py "tool"] (Some 2%Z) [] [] false)
  ∧ ∃ findings st',
      main_probes zero_tool sample_lower sample_args [py "tool"] sample_state
      = (Ok findings, st')
      ∧ unknown_flag_fail ∈ findings
      ∧ fst (main zero_tool on_path any_file sample_lower sample_args
               sample_state) = Ok 1%Z.
Proof.
  split.
  - refine (proj2 (proj2 (proj1
      (invalid_flag_exit_code zero_tool on_path any_file sample_lower)
      (mkRunResult [py "tool"] (Some 2%Z) [] [] false) 2%Z eq_refl eq_refl))
      _).
    discriminate.
  - destruct (proj2
        (invalid_flag_exit_code zero_tool on_path any_file sample_lower)
        sample_args sample_state (py "tool") [] sample_target eq_refl)
      as (findings & st' & H1 & H2 & H3 & _).
    { intros n argv env t. by exists (py "Usage: tool [OPTIONS]"), []. }
    exists findings, st'. split; [exact H1|]. split; [exact H2 | exact H3].
Defined.

Lemma help_both_warn_without_output_witness :
  ∃ findings,
    fst (main_probes silent_tool sample_lower sample_args [py "tool"]
           sample_state) = Ok findings
    ∧ help_both_warn ∈ findings.
Proof.
  destruct (help_both_warn_without_output silent_tool sample_lower
              sample_args [py "tool"] sample_state 0%Z
              caught_silent_tool eq_refl)
    as (findings & st' & help_res & H1 & _ & _ & _ & _ & H2).
  exists findings. rewrite H1. split; [reflexivity | exact H2].
Defined.

Lemma short_flags_at_word_boundaries_witness :
  ∃ i, short_flag_at (ch "v") (py "run -v now") i.
Proof.
  apply (proj1 short_flags_at_word_boundaries). vm_compute. reflexivity.
Defined.

Lemma looks_like_help_substrings_witness :
  lower_on_ascii sample_lower
  ∧ looks_like_help sample_lower (py "Usage: foo [OPTIONS]") = true
  ∧ looks_like_help sample_lower (py "random text") = false.
Proof.
  split; [exact sample_lower_on_ascii|].
  exact (proj2 (looks_like_help_substrings sample_lower
                  sample_lower_on_ascii)).
Defined.

Lemma run_cmd_environment_witness :
  ∃ env,
    trace (snd (run_cmd zero_tool [py "tool"; py "--help"] 10%float
                  (Some {[ py "NO_COLOR" := py "1" ]}) sample_state))
    = [EvSpawn [py "tool"; py "--help"] env 10%float]
    ∧ env !! py "NO_COLOR" = Some (py "1")
    ∧ env !! py "PATH" = Some (py "/usr/bin")
    ∧ os_environ
        (snd (run_cmd zero_tool [py "tool"; py "--help"] 10%float
                (Some {[ py "NO_COLOR" := py "1" ]}) sample_state))
      = os_environ sample_state.
Proof.
  destruct (run_cmd_environment zero_tool [py "tool"; py "--help"] 10%float
              (Some {[ py "NO_COLOR" := py "1" ]}) sample_state)
    as (env & Htrace & _ & Hover & Hamb & _ & Henv & _).
  exists env. split; [exact Htrace|]. split; [|split; [|exact Henv]].
  - apply Hover. vm_compute. reflexivity.
  - rewrite Hamb; vm_compute; reflexivity.
Defined.

(** C9 as first stated fails: the NO_COLOR probe of this tool times out
    after a coloured line, and the suite gives the WARN finding and not
    the PASS finding. *)
Lemma no_color_timeout_without_pass :
  probe_outcome colour_then_hang sample_args [py "tool"] sample_state 3
  = TimeoutExpired (Some (ESC :: py "[31mUsage: tool")) None
  ∧ ∃ findings,
      fst (main_probes colour_then_hang sample_lower sample_args [py "tool"]
             sample_state) = Ok findings
      ∧ (no_color_pass ∉ findings)
      ∧ (no_color_warn ∈ findings).
Proof.
  split; [by vm_compute|].
  destruct (main_probes colour_then_hang sample_lower sample_args [py "tool"]
              sample_state) as [[findings|e] st'] eqn:E;
    [|vm_compute in E; discriminate].
  exists findings. split; [reflexivity|].
  vm_compute in E. injection E as <- _.
  split; compute_done.
Qed.

Lemma env_probes_follow_ansi_witness :
  ∃ findings,
    fst (main_probes missing_tool sample_lower sample_args [py "tool"]
           sample_state) = Ok findings
    ∧ no_color_pass ∈ findings ∧ dumb_term_pass ∈ findings.
Proof.
  destruct (proj2 (proj2 (env_probes_follow_ansi missing_tool sample_lower))
              sample_args [py "tool"] sample_state caught_missing_tool)
    as (findings & st' & no_color_res & dumb_term_res
        & H & _ & _ & _ & _ & Hnc & Hdt & _).
  exists findings. rewrite H. split; [reflexivity|].
  split; [apply Hnc | apply Hdt]; reflexivity.
Defined.

Lemma conventions_checked_always_witness :
  ∃ findings,
    fst (main_probes hanging_tool sample_lower sample_args [py "tool"]
           sample_state) = Ok findings
    ∧ version_pass ∈ findings ∧ json_pass ∈ findings
    ∧ plain_warn ∈ findings ∧ colour_warn ∈ findings
    ∧ no_input_warn ∈ findings
    ∧ ansi_pass ∈ findings ∧ carriage_warn ∈ findings.
Proof.
  destruct (conventions_checked_always hanging_tool sample_lower
              sample_args [py "tool"] sample_state caught_hanging_tool)
    as (findings & st' & help_res & before & after & text
        & version & json & plain & colour & no_input & ansi & carriage
        & H & _ & Hf & _ & _ & _ & _ & _
        & Hv & Hj & Hp & Hc & Hn & _ & Hansi & Hcr & _ & Hto & _).
  destruct (Hto _ _ eq_refl) as (Hout & Herr & Htext).
  assert (Hyes : ∀ k, contains k text = true → is_substring k text).
  { intros k Hk. by apply contains_spec. }
  assert (Hno : ∀ k, contains k text = false → ¬ is_substring k text).
  { intros k Hk Hs. apply contains_spec in Hs. congruence. }
  rewrite Htext in Hyes, Hno.
  assert (Hin : ∀ f, f ∈ [version; json; plain; colour; no_input]
                       ++ ansi :: carriage → f ∈ findings).
  { intros f Hin. rewrite Hf. apply elem_of_app. right.
    apply elem_of_app in Hin as [Hin | Hin].
    - apply elem_of_app. by left.
    - apply elem_of_app. right.
      apply elem_of_cons in Hin as [-> | Hin].
      + apply list_elem_of_here.
      + apply list_elem_of_further, elem_of_app. by left. }
  assert (Ev : version = version_pass).
  { destruct Hv as [[Ev _] | [_ Hv]]; [exact Ev|]. exfalso.
    apply (Hv (py "--version")); [apply list_elem_of_here|].
    rewrite Htext. apply Hyes. reflexivity. }
  assert (Ej : json = json_pass).
  { destruct Hj as [[Ej _] | [_ Hj]]; [exact Ej|]. exfalso.
    apply (Hj (py "--json")); [apply list_elem_of_here|].
    rewrite Htext. apply Hyes. reflexivity. }
  assert (Ep : plain = plain_warn).
  { destruct Hp as [[_ (tok & Htok & Hs)] | [Ep _]]; [|exact Ep]. exfalso.
    apply list_elem_of_singleton in Htok. subst tok.
    rewrite Htext in Hs. revert Hs. apply Hno. reflexivity. }
  assert (Ec : colour = colour_warn).
  { destruct Hc as [[_ (tok & Htok & Hs)] | [Ec _]]; [|exact Ec]. exfalso.
    rewrite Htext in Hs. revert Hs.
    apply elem_of_cons in Htok as [Htok | Htok].
    - subst tok. apply Hno. reflexivity.
    - apply list_elem_of_singleton in Htok. subst tok.
      apply Hno. reflexivity. }
  assert (En : no_input = no_input_warn).
  { destruct Hn as [[_ (tok & Htok & Hs)] | [En _]]; [|exact En]. exfalso.
    apply list_elem_of_singleton in Htok. subst tok.
    rewrite Htext in Hs. revert Hs. apply Hno. reflexivity. }
  assert (Ea : ansi = ansi_pass).
  { apply Hansi; [rewrite Hout | rewrite Herr]; compute_done. }
  assert (Er : carriage = [carriage_warn]).
  { destruct Hcr as [[_ Er] | (Hcr & _ & _)]; [exact Er|]. exfalso.
    apply Hcr. rewrite Hout. compute_done. }
  subst version json plain colour no_input ansi carriage.
  exists findings. rewrite H. split; [reflexivity|].
  repeat split; apply Hin.
  - apply list_elem_of_here.
  - do 1 apply list_elem_of_further. apply list_elem_of_here.
  - do 2 apply list_elem_of_further. apply list_elem_of_here.
  - do 3 apply list_elem_of_further. apply list_elem_of_here.
  - do 4 apply list_elem_of_further. apply list_elem_of_here.
  - do 5 apply list_elem_of_further. apply list_elem_of_here.
  - do 6 apply list_elem_of_further. apply list_elem_of_here.
Defined.

(** ** More theorems on the sample platforms *)







